(** * A react-three-fiber binding for the Jolt physics engine

    Shallow embedding of [src/App.tsx]: the per-frame stepping callback of
    the [Physics] component, and the mount effect and cleanup of the
    [RigidBody] component, over
    - JavaScript numbers as IEEE-754 binary64 values ([SpecFloat]);
    - the [bodies] registry ([Map<number, {body, three}>]) as a [gmap];
    - the Jolt engine as an interface with a stated contract, since the
      engine itself is an external library;
    - exceptions and in-place mutation as a state-and-exception monad that
      also records the sequence of effects performed. *)

From Stdlib Require Import ZArith QArith Qpower Qminmax Qabs Lia Lqa SpecFloat.
From Stdlib Require Import String.
From stdpp Require Import base option list gmap sets strings.

Local Open Scope string_scope.

(** ** JavaScript numbers *)

Module JSNumber.

Definition prec : Z := 53.
Definition emax : Z := 1024.

Definition number : Type := spec_float.
Definition NaN : number := S754_nan.

(** A numeric literal with an integral value. *)
Definition of_Z (z : Z) : number := binary_normalize prec emax z 0 false.

(** [a * b], [a / b], [a < b], [a > b], [a <= b], [a >= b]. *)
Definition mul (a b : number) : number := SFmul prec emax a b.
Definition div (a b : number) : number := SFdiv prec emax a b.
Definition lt (a b : number) : bool := SFltb a b.
Definition gt (a b : number) : bool := SFltb b a.
Definition le (a b : number) : bool := SFleb a b.
Definition ge (a b : number) : bool := SFleb b a.

(** [Math.min(a, b)] (ECMA-262): NaN if either argument is NaN,
    [-0] is taken to be below [+0], otherwise the smaller argument. *)
Definition Math_min (a b : number) : number :=
  match a, b with
  | S754_nan, _ | _, S754_nan => S754_nan
  | S754_zero false, S754_zero true => S754_zero true
  | _, _ => if lt b a then b else a
  end.

(** The value read from an array slot that may be missing, used as an
    operand of arithmetic: [undefined] converts to NaN. *)
Definition ToNumber (v : option number) : number := default NaN v.

(** Every JavaScript number is a canonical binary64 value. *)
Definition valid (a : number) : bool := valid_binary prec emax a.

Definition is_finite (a : number) : bool :=
  match a with
  | S754_zero _ | S754_finite _ _ _ => true
  | _ => false
  end.

(** The rational a finite number denotes (0 for infinities and NaN). *)
Definition to_Q (a : number) : Q :=
  match a with
  | S754_finite s m e =>
      ((if s then -1 else 1) * inject_Z (Zpos m) * 2 ^ e)%Q
  | _ => 0%Q
  end.

(** The magnitude of a finite number with mantissa [m] and exponent [e]. *)
Definition mag (m : positive) (e : Z) : Q := (inject_Z (Zpos m) * 2 ^ e)%Q.

(** The literals of [App.tsx].  [0.5] is a binary64 value; [0.05] stands for
    the binary64 value nearest to 5/100, which is what the correctly rounded
    quotient of the exact values 5 and 100 is. *)
Definition lit_0 : number := of_Z 0.
Definition lit_1 : number := of_Z 1.
Definition lit_30 : number := of_Z 30.
Definition lit_55 : number := of_Z 55.
Definition lit_0_5 : number := div (of_Z 1) (of_Z 2).
Definition lit_0_05 : number := div (of_Z 5) (of_Z 100).

End JSNumber.
Import JSNumber.

(** ** The Jolt module: enumerations, value classes and the engine *)

Module jolt.

Inductive EMotionType := Static | Kinematic | Dynamic.
Inductive ObjectLayer := NON_MOVING | MOVING.
Inductive EActivation := Activate | DontActivate.

Record Vec3 := new_Vec3 { vGetX : number; vGetY : number; vGetZ : number }.
Record Quat := new_Quat
  { qGetX : number; qGetY : number; qGetZ : number; qGetW : number }.

(** [new jolt.BoxShape(halfExtent, convexRadius, null)] and
    [new jolt.SphereShape(radius, null)]; the material argument is always
    [null] in [App.tsx] and is left out. *)
Inductive Shape :=
| BoxShape (inHalfExtent : Vec3) (inConvexRadius : number)
| SphereShape (inRadius : number).

Record BodyCreationSettings := mkBodyCreationSettings
  { mShape : Shape;
    mPosition : Vec3;
    mRotation : Quat;
    mMotionType : EMotionType;
    mObjectLayer : ObjectLayer;
    mRestitution : number }.

(** [new jolt.BodyCreationSettings(shape, position, rotation, motionType,
    objectLayer)]; the restitution starts at the engine's default, 0. *)
Definition new_BodyCreationSettings (shape : Shape) (p : Vec3) (q : Quat)
    (motionType : EMotionType) (objectLayer : ObjectLayer)
    : BodyCreationSettings :=
  mkBodyCreationSettings shape p q motionType objectLayer lit_0.

(** [settings.mRestitution = r]. *)
Definition set_mRestitution (r : number) (cs : BodyCreationSettings)
    : BodyCreationSettings :=
  mkBodyCreationSettings (mShape cs) (mPosition cs) (mRotation cs)
    (mMotionType cs) (mObjectLayer cs) r.

Definition BodyID : Type := nat.
Record Body := mkBody { GetID : BodyID }.

(** The engine behind [joltInterface], [bodyInterface] and the [Body]
    accessors, as operations on a world [W], with the contract the program
    relies on.  [allocated w] is the set of ids of the bodies created and not
    yet destroyed in [w]: [CreateBody] returns a body under an id that is not
    in use (it is taken to succeed, as the program takes it to), only
    [DestroyBody] frees an id, and neither [AddBody] nor [Step] creates or
    destroys a body. *)
Class JoltEngine (W : Type) := {
  Step : number -> Z -> W -> W;
  CreateBody : BodyCreationSettings -> W -> Body * W;
  AddBody : BodyID -> EActivation -> W -> W;
  DestroyBody : BodyID -> W -> W;
  GetPosition : Body -> W -> Vec3;
  GetRotation : Body -> W -> Quat;
  allocated : W -> gset BodyID;
  CreateBody_fresh : forall cs w,
    GetID (CreateBody cs w).1 ∉ allocated w;
  CreateBody_allocated : forall cs w,
    allocated (CreateBody cs w).2
    = {[ GetID (CreateBody cs w).1 ]} ∪ allocated w;
  AddBody_allocated : forall i a w,
    allocated (AddBody i a w) = allocated w;
  DestroyBody_allocated : forall i w,
    allocated (DestroyBody i w) = allocated w ∖ {[ i ]};
  Step_allocated : forall dt n w,
    allocated (Step dt n w) = allocated w
}.

(** The number of bodies in the world. *)
Definition GetNumBodies {W} `{JoltEngine W} (w : W) : nat :=
  size (allocated w).

End jolt.
Import jolt.

(** ** three.js scene objects *)

Module THREE.

(** An [Object3D] is a mutable object shared between the scene graph and the
    registry; it is referred to by its [id], and its transform lives in the
    scene store of the program state. *)
Record Object3D := mkObject3D { id : Z }.

Record Transform := mkTransform
  { position : number * number * number;
    quaternion : number * number * number * number }.

End THREE.

(** ** Program state, exceptions and effects *)

(** What the program can throw: [new Error(message)], and the [TypeError] of
    a property read on [null]. *)
Inductive exn := Error (message : string) | TypeError.

(** A value of the [bodies] map. *)
Record BodyRecord := mkBodyRecord { body : Body; three : THREE.Object3D }.

Inductive Effect :=
| E_Step (deltaTime : number) (numSteps : Z)
| E_CreateBody (settings : BodyCreationSettings) (result : Body)
| E_AddBody (i : BodyID) (mode : EActivation)
| E_DestroyBody (i : BodyID)
| E_bodies_set (key : Z) (value : BodyRecord)
| E_bodies_delete (key : Z).

Record State (W : Type) := mkState
  { world : W;
    bodies : gmap Z BodyRecord;
    scene : gmap Z THREE.Transform;
    trace : list Effect }.
Arguments mkState {W}.
Arguments world {W}.
Arguments bodies {W}.
Arguments scene {W}.
Arguments trace {W}.

(** Computations that mutate the state and either return or throw; the state
    reached at a throw is kept, as in JavaScript. *)
Definition M (W A : Type) : Type := State W -> State W * (exn + A).

Definition ret {W A} (a : A) : M W A := fun s => (s, inr a).
Definition bind {W A B} (m : M W A) (k : A -> M W B) : M W B :=
  fun s =>
    match m s with
    | (s', inr a) => k a s'
    | (s', inl e) => (s', inl e)
    end.
(** A pure computation that returns ([inr]) or throws ([inl]). *)
Definition lift {W A} (r : exn + A) : M W A := fun s => (s, r).

Declare Scope js_scope.
Delimit Scope js_scope with js.
Notation "x <- m ;; k" := (bind m (fun x => k))
  (at level 100, m at next level, right associativity) : js_scope.
Notation "m ;; k" := (bind m (fun _ => k))
  (at level 100, right associativity) : js_scope.

Section Program.
Context {W : Type} `{JoltEngine W}.

Local Open Scope js_scope.

(** *** Primitive effects *)

(** [joltInterface.Step(deltaTime, numSteps)].  The call is taken to
    return, as the callback takes it to (nothing in [App.tsx] catches an
    exception of the engine): what the engine does inside a step, a trap of
    its WebAssembly code included, is outside this development.  What is
    stated of a frame below is which arguments the call receives and what
    the pass that follows a returned call writes. *)
Definition joltInterface_Step (deltaTime : number) (numSteps : Z) : M W unit :=
  fun s =>
    (mkState (Step deltaTime numSteps (world s)) (bodies s) (scene s)
       (trace s ++ [E_Step deltaTime numSteps]), inr tt).

Definition bodyInterface_CreateBody (cs : BodyCreationSettings) : M W Body :=
  fun s =>
    let '(b, w) := CreateBody cs (world s) in
    (mkState w (bodies s) (scene s) (trace s ++ [E_CreateBody cs b]), inr b).

Definition bodyInterface_AddBody (i : BodyID) (mode : EActivation) : M W unit :=
  fun s =>
    (mkState (AddBody i mode (world s)) (bodies s) (scene s)
       (trace s ++ [E_AddBody i mode]), inr tt).

Definition bodyInterface_DestroyBody (i : BodyID) : M W unit :=
  fun s =>
    (mkState (DestroyBody i (world s)) (bodies s) (scene s)
       (trace s ++ [E_DestroyBody i]), inr tt).

(** [bodies.set(key, value)]: inserts, or replaces the value under a key
    that is present. *)
Definition bodies_set (key : Z) (value : BodyRecord) : M W unit :=
  fun s =>
    (mkState (world s) (<[key := value]> (bodies s)) (scene s)
       (trace s ++ [E_bodies_set key value]), inr tt).

(** [bodies.delete(key)]: removes the entry if there is one, and returns
    whether there was one. *)
Definition bodies_delete (key : Z) : M W bool :=
  fun s =>
    (mkState (world s) (delete key (bodies s)) (scene s)
       (trace s ++ [E_bodies_delete key]),
     inr (bool_decide (is_Some (bodies s !! key)))).

(** *** [Physics]: the [useFrame] callback (App.tsx, lines 43-60) *)

(** One iteration of the body of the [for ... of bodies] loop.  Each
    iteration writes the transform of the record's own scene object, so the
    order in which the records are visited is immaterial. *)
Definition sync_record (w : W) (_ : Z) (r : BodyRecord)
    (sc : gmap Z THREE.Transform) : gmap Z THREE.Transform :=
  let p := GetPosition (body r) w in
  let q := GetRotation (body r) w in
  <[THREE.id (three r) :=
      THREE.mkTransform (vGetX p, vGetY p, vGetZ p)
        (qGetX q, qGetY q, qGetZ q, qGetW q)]> sc.

Definition update_body_transforms : M W unit :=
  fun s =>
    (mkState (world s) (bodies s)
       (map_fold (sync_record (world s)) (scene s) (bodies s)) (trace s),
     inr tt).

Definition Physics_useFrame (delta : number) : M W unit :=
  let deltaTime := Math_min delta (div lit_1 lit_30) in
  let numSteps := if gt deltaTime (div lit_1 lit_55) then 2%Z else 1%Z in
  joltInterface_Step deltaTime numSteps ;;
  update_body_transforms.

(** *** [RigidBody]: the mount effect (App.tsx, lines 104-158) *)

(** [args: BoxShapeArgs | SphereShapeArgs], a tuple of three numbers or of
    one. *)
Inductive Args :=
| BoxShapeArgs (a0 a1 a2 : number)
| SphereShapeArgs (radius : number).

(** [args[i]]; [None] stands for [undefined]. *)
Definition args_at (args : Args) (i : nat) : option number :=
  match args, i with
  | BoxShapeArgs a _ _, 0 => Some a
  | BoxShapeArgs _ b _, 1 => Some b
  | BoxShapeArgs _ _ c, 2 => Some c
  | SphereShapeArgs r, 0 => Some r
  | _, _ => None
  end.

Record RigidBodyProps := mkRigidBodyProps
  { type : string;
    shape : string;
    args : Args;
    position : number * number * number }.

(** Lines 105-120: the collision shape.  Constructing a shape is modelled
    as building a value; [args[1]!] and [args[2]!] are [undefined] for a
    one-element [args], and [undefined * 0.5] is NaN. *)
Definition RigidBody_shape (shapeType : string) (args : Args) : exn + Shape :=
  if String.eqb shapeType "box" then
    let sx := ToNumber (args_at args 0) in
    let sy := ToNumber (args_at args 1) in
    let sz := ToNumber (args_at args 2) in
    inr (BoxShape
           (new_Vec3 (mul sx lit_0_5) (mul sy lit_0_5) (mul sz lit_0_5))
           lit_0_05)
  else if String.eqb shapeType "sphere" then
    let radius := ToNumber (args_at args 0) in
    inr (SphereShape radius)
  else
    inl (Error ("unsupported shape type " ++ shapeType)).

(** Lines 122-135: the motion type and the object layer. *)
Definition RigidBody_motion (type : string) : exn + EMotionType * ObjectLayer :=
  if String.eqb type "static" then inr (Static, NON_MOVING)
  else if String.eqb type "kinematic" then inr (Kinematic, MOVING)
  else if String.eqb type "dynamic" then inr (Dynamic, MOVING)
  else inl (Error ("unsupported type " ++ type)).

(** Lines 137-144. *)
Definition RigidBody_creationSettings (shape : Shape)
    (position : number * number * number)
    (motionType : EMotionType) (objectLayer : ObjectLayer)
    : BodyCreationSettings :=
  set_mRestitution lit_0_5
    (new_BodyCreationSettings shape
       (new_Vec3 position.1.1 position.1.2 position.2)
       (new_Quat lit_0 lit_0 lit_0 lit_1)
       motionType objectLayer).

(** [ref.current.p], for a property [p]: [ref] is created holding [null]
    ([useRef<Group>(null!)]), and reading a property of [null] throws. *)
Definition ref_current_object (ref_current : option THREE.Object3D)
    : exn + THREE.Object3D :=
  match ref_current with
  | Some o => inr o
  | None => inl TypeError
  end.

(** The effect run when a [RigidBody] mounts.  [ref_current] is the value of
    [ref.current] when the effect runs: the [Group] of the component, once
    React has attached it.  The effect returns its cleanup closure,
    represented by the one variable the closure captures from the effect
    body: [body]. *)
Definition RigidBody_useEffect (props : RigidBodyProps)
    (ref_current : option THREE.Object3D) : M W Body :=
  shape <- lift (RigidBody_shape (shape props) (args props)) ;;
  ml <- lift (RigidBody_motion (type props)) ;;
  let creationSettings :=
    RigidBody_creationSettings shape (position props) ml.1 ml.2 in
  body <- bodyInterface_CreateBody creationSettings ;;
  bodyInterface_AddBody (GetID body) Activate ;;
  three <- lift (ref_current_object ref_current) ;;
  bodies_set (THREE.id three) (mkBodyRecord body three) ;;
  ret body.

(** The cleanup closure (lines 154-157), run when the [RigidBody] unmounts;
    [ref_current] is the value of [ref.current] at that time. *)
Definition RigidBody_cleanup (ref_current : option THREE.Object3D)
    (body : Body) : M W unit :=
  three <- lift (ref_current_object ref_current) ;;
  bodies_delete (THREE.id three) ;;
  bodyInterface_DestroyBody (GetID body).

End Program.

(** ** Component lifecycle

    React runs the effect of a [RigidBody] once when it mounts and keeps the
    cleanup closure it returned; it runs that closure once when the component
    unmounts.  Between these, frames tick.

    The effect runs after React has attached the [ref] of the [<group>], so
    it sees the scene object.  When React removes the component it detaches
    the [ref] ([ref.current = null]) as it deletes the element, and runs the
    cleanups of [useEffect] after that: the cleanup of a component that is
    removed sees [null].  A cleanup sees the scene object only when React
    runs it while the element stays in place, as the development-mode
    re-run of effects does.  Both are events of the model. *)

Section Lifecycle.
Context {W : Type} `{JoltEngine W}.

(** A mounted [RigidBody]: its scene object and the body its cleanup closure
    captured. *)
Record Mounted := mkMounted { m_ref : THREE.Object3D; m_body : Body }.

Record System := mkSystem { st : State W; mounted : list Mounted }.

(** [Unmount i attached] runs the cleanup of the [i]-th mounted component
    and forgets the component; [attached] tells whether [ref.current] still
    holds its scene object when the cleanup runs ([true]), or has been reset
    to [null] by then ([false]: the component was removed from the tree). *)
Inductive Event :=
| Mount (props : RigidBodyProps) (ref_current : option THREE.Object3D)
| Unmount (i : nat) (attached : bool)
| Frame (delta : number).

(** An effect that throws registers no cleanup.  The cleanup of a mounted
    component runs with the scene object the effect has seen, or with
    [null]. *)
Definition handle (sys : System) (ev : Event) : System :=
  match ev with
  | Mount props ref_current =>
      match RigidBody_useEffect props ref_current (st sys) with
      | (s', inr b) =>
          mkSystem s'
            (match ref_current with
             | Some o => mkMounted o b :: mounted sys
             | None => mounted sys
             end)
      | (s', inl _) => mkSystem s' (mounted sys)
      end
  | Unmount i attached =>
      match mounted sys !! i with
      | Some m =>
          let ref_current := if attached then Some (m_ref m) else None in
          mkSystem (RigidBody_cleanup ref_current (m_body m) (st sys)).1
            (delete i (mounted sys))
      | None => sys
      end
  | Frame delta =>
      mkSystem (Physics_useFrame delta (st sys)).1 (mounted sys)
  end.

Definition run (evs : list Event) (sys : System) : System :=
  fold_left handle evs sys.

(** The [Physics] component starts with an empty registry. *)
Definition initial (w : W) : System := mkSystem (mkState w ∅ ∅ []) [].

(** Every record of the registry refers to a body that is allocated in the
    world. *)
Definition registry_live (s : State W) : Prop :=
  forall k r, bodies s !! k = Some r -> GetID (body r) ∈ allocated (world s).

(** The invariant that relates the registry, the mounted components and the
    world: the registry is live, the body of every mounted component is
    allocated, no two mounted components hold the same body, and a record
    that refers to the body of a mounted component is stored under the id of
    that component's scene object. *)
Definition sys_inv (sys : System) : Prop :=
  registry_live (st sys)
  /\ (forall m, m ∈ mounted sys ->
        GetID (m_body m) ∈ allocated (world (st sys)))
  /\ NoDup ((fun m => GetID (m_body m)) <$> mounted sys)
  /\ (forall k r m,
        bodies (st sys) !! k = Some r -> m ∈ mounted sys ->
        GetID (m_body m) = GetID (body r) -> THREE.id (m_ref m) = k).

End Lifecycle.
Arguments Mounted : clear implicits.
Arguments System W : clear implicits.

(** ** The specification's vocabulary *)


(** "2 sub-steps if rawDelta > 1/55, otherwise 1". *)
Definition spec_numSteps (rawDelta : number) : Z :=
  if gt rawDelta (div lit_1 lit_55) then 2%Z else 1%Z.

Inductive MotionClass := MC_Static | MC_Kinematic | MC_Dynamic.

Definition MotionClass_name (mc : MotionClass) : string :=
  match mc with
  | MC_Static => "static"
  | MC_Kinematic => "kinematic"
  | MC_Dynamic => "dynamic"
  end.

(** Static to (non-integrating, non-moving layer), Kinematic to
    (externally driven, moving layer), Dynamic to (fully integrated, moving
    layer). *)
Definition spec_motion_pair (mc : MotionClass) : EMotionType * ObjectLayer :=
  match mc with
  | MC_Static => (Static, NON_MOVING)
  | MC_Kinematic => (Kinematic, MOVING)
  | MC_Dynamic => (Dynamic, MOVING)
  end.

Definition supported_shape (shapeType : string) : Prop :=
  shapeType = "box" \/ shapeType = "sphere".

Definition supported_type (type : string) : Prop :=
  type = "static" \/ type = "kinematic" \/ type = "dynamic".

(** The errors the specification calls [ConfigurationError], as thrown for
    the properties [props]. *)
Definition ConfigurationError (props : RigidBodyProps) (e : exn) : Prop :=
  e = Error ("unsupported shape type " ++ shape props) \/
  e = Error ("unsupported type " ++ type props).

(** ** A reference engine

    The simplest world that meets the [JoltEngine] contract: a table of the
    bodies created and not destroyed, the activation mode of those added, and
    the simulated steps taken.  A new body gets an id that is not in use. *)

Module RefEngine.

Record World := mkWorld
  { w_bodies : gmap BodyID BodyCreationSettings;
    w_added : gmap BodyID EActivation;
    w_steps : list (number * Z) }.

Definition empty : World := mkWorld ∅ ∅ [].

Definition step (dt : number) (n : Z) (w : World) : World :=
  mkWorld (w_bodies w) (w_added w) (w_steps w ++ [(dt, n)]).

Definition create (cs : BodyCreationSettings) (w : World) : Body * World :=
  let i := fresh (dom (w_bodies w)) in
  (mkBody i, mkWorld (<[i := cs]> (w_bodies w)) (w_added w) (w_steps w)).

Definition add (i : BodyID) (a : EActivation) (w : World) : World :=
  mkWorld (w_bodies w) (<[i := a]> (w_added w)) (w_steps w).

Definition destroy (i : BodyID) (w : World) : World :=
  mkWorld (delete i (w_bodies w)) (delete i (w_added w)) (w_steps w).

Definition position_of (b : Body) (w : World) : Vec3 :=
  match w_bodies w !! GetID b with
  | Some cs => mPosition cs
  | None => new_Vec3 lit_0 lit_0 lit_0
  end.

Definition rotation_of (b : Body) (w : World) : Quat :=
  match w_bodies w !! GetID b with
  | Some cs => mRotation cs
  | None => new_Quat lit_0 lit_0 lit_0 lit_1
  end.

#[global] Instance engine : JoltEngine World.
Proof.
  refine {| Step := step; CreateBody := create; AddBody := add;
            DestroyBody := destroy; GetPosition := position_of;
            GetRotation := rotation_of;
            allocated := fun w => dom (w_bodies w) |}.
  - intros cs w. simpl. apply is_fresh.
  - intros cs w. simpl. apply dom_insert_L.
  - reflexivity.
  - intros i w. simpl. apply dom_delete_L.
  - reflexivity.
Defined.

End RefEngine.

(** ** [App]: the scene (App.tsx, lines 163-202) *)

(** [a + b] and [a - b]. *)
Definition number_add (a b : number) : number := SFadd prec emax a b.
Definition number_sub (a b : number) : number := SFsub prec emax a b.

(** The properties of the [idx]-th falling box.  [random n] is what the
    [n]-th call of [Math.random()] returns; the position of a box is
    evaluated left to right, so box [idx] takes the calls [2 * idx] and
    [2 * idx + 1]. *)
Definition App_box (random : nat -> number) (idx : nat) : RigidBodyProps :=
  mkRigidBodyProps "dynamic" "box" (BoxShapeArgs lit_1 lit_1 lit_1)
    (number_sub (random (2 * idx)) lit_0_5,
     number_add (of_Z 10) (mul (of_Z (Z.of_nat idx)) (of_Z 2)),
     number_sub (random (2 * idx + 1)) lit_0_5).

Definition App_floor : RigidBodyProps :=
  mkRigidBodyProps "static" "box" (BoxShapeArgs (of_Z 100) lit_1 (of_Z 100))
    (lit_0, of_Z (-1), lit_0).

(** The properties of the [RigidBody] elements of [App], in document order:
    [Array.from({ length: 100 }, ...)], then the floor. *)
Definition App (random : nat -> number) : list RigidBodyProps :=
  (App_box random <$> seq 0 100) ++ [App_floor].

(** Mounting a list of rigid bodies, each with its scene object in
    [ref.current]. *)
Definition mount_all (l : list (RigidBodyProps * THREE.Object3D))
    : list Event :=
  (fun po => Mount po.1 (Some po.2)) <$> l.

(** ** Vocabulary of the further properties *)

(** A length whose half is a binary64 value: it is zero, or at least
    [2^-1021] in magnitude, so that halving it does not reach the subnormal
    range. *)
Definition halvable (d : number) : Prop :=
  valid d = true /\ is_finite d = true /\
  (to_Q d == 0 \/ 2 ^ (-1021) <= Qabs (to_Q d))%Q.

(** Every record of the registry is stored under the id of its own scene
    object. *)
Definition registry_keyed {W : Type} (s : State W) : Prop :=
  forall k r, bodies s !! k = Some r -> THREE.id (three r) = k.

(** The events in which [ref.current] holds the scene object of the
    component. *)
Definition attached (ev : Event) : bool :=
  match ev with
  | Mount _ (Some _) => true
  | Mount _ None => false
  | Unmount _ a => a
  | Frame _ => true
  end.

(** The bodies of the world and the records of the registry are accounted
    for by the mounted components: the allocated bodies are those of the
    initial world [w0] and, once each, those of the mounted components, and
    each record was stored for a mounted component, under the id of its scene
    object. *)
Definition accounted {W : Type} `{JoltEngine W} (w0 : W) (sys : System W)
    : Prop :=
  allocated (world (st sys))
  = allocated w0 ∪ list_to_set ((fun m => GetID (m_body m)) <$> mounted sys)
  /\ NoDup ((fun m => GetID (m_body m)) <$> mounted sys)
  /\ (forall m, m ∈ mounted sys -> GetID (m_body m) ∉ allocated w0)
  /\ (forall k r, bodies (st sys) !! k = Some r ->
        exists m, m ∈ mounted sys /\ THREE.id (m_ref m) = k /\
                  m_body m = body r).

(** The number of [CreateBody] calls and of [DestroyBody] calls among the
    effects performed. *)
Definition is_CreateBody (e : Effect) : bool :=
  match e with E_CreateBody _ _ => true | _ => false end.

Definition is_DestroyBody (e : Effect) : bool :=
  match e with E_DestroyBody _ => true | _ => false end.

Definition created (tr : list Effect) : nat :=
  length (List.filter is_CreateBody tr).

Definition destroyed (tr : list Effect) : nat :=
  length (List.filter is_DestroyBody tr).

(** The events that run a cleanup with the scene object in [ref.current]. *)
Definition is_attached_unmount (ev : Event) : bool :=
  match ev with
  | Unmount _ a => a
  | _ => false
  end.

(** The bodies of the world are those of the initial world [w0], plus those
    created, less those destroyed. *)
Definition conserved {W : Type} `{JoltEngine W} (w0 : W) (s : State W)
    : Prop :=
  GetNumBodies (world s) + destroyed (trace s)
  = GetNumBodies w0 + created (trace s).

(** Every id under which a record was stored still has a record. *)
Definition registered_kept {W : Type} (s : State W) : Prop :=
  forall k v, In (E_bodies_set k v) (trace s) -> is_Some (bodies s !! k).

(** The four patterns in which the program touches the engine and the
    registry: a step of one or two sub-steps; a body created, added with
    [Activate] and registered under the id of its scene object; a body
    created and added, the registration cut short; a record deleted and then
    a body destroyed. *)
Definition protocol_chunk (c : list Effect) : Prop :=
  (exists dt n, c = [E_Step dt n] /\ (n = 1 \/ n = 2)%Z) \/
  (exists cs b o,
     c = [E_CreateBody cs b; E_AddBody (GetID b) Activate;
          E_bodies_set (THREE.id o) (mkBodyRecord b o)]) \/
  (exists cs b, c = [E_CreateBody cs b; E_AddBody (GetID b) Activate]) \/
  (exists o b, c = [E_bodies_delete (THREE.id o); E_DestroyBody (GetID b)]).

Local Close Scope string_scope.

(** * Properties *)

(** ** Numbers: comparison and the rationals they denote *)

Section NumberFacts.

Lemma digits2_pos_upper (m : positive) :
  (Zpos m < 2 ^ Zpos (digits2_pos m))%Z.
Proof.
  induction m as [m IH | m IH |]; simpl digits2_pos.
  - rewrite Pos2Z.inj_succ, Z.pow_succ_r by lia. lia.
  - rewrite Pos2Z.inj_succ, Z.pow_succ_r by lia. lia.
  - reflexivity.
Qed.

Lemma digits2_pos_lower (m : positive) :
  (2 ^ (Zpos (digits2_pos m) - 1) <= Zpos m)%Z.
Proof.
  induction m as [m IH | m IH |]; simpl digits2_pos.
  - rewrite Pos2Z.inj_succ.
    replace (Z.succ (Zpos (digits2_pos m)) - 1)%Z
      with (Z.succ (Zpos (digits2_pos m) - 1))%Z by lia.
    rewrite Z.pow_succ_r by lia. lia.
  - rewrite Pos2Z.inj_succ.
    replace (Z.succ (Zpos (digits2_pos m)) - 1)%Z
      with (Z.succ (Zpos (digits2_pos m) - 1))%Z by lia.
    rewrite Z.pow_succ_r by lia. lia.
  - simpl. lia.
Qed.

Lemma bounded_digits (m : positive) (e : Z) :
  bounded prec emax m e = true ->
  (Zpos m < 2 ^ 53)%Z /\ ((-1074 < e)%Z -> (2 ^ 52 <= Zpos m)%Z) /\ (-1074 <= e)%Z.
Proof.
  unfold bounded, canonical_mantissa, fexp, emin, prec, emax.
  intros H. apply andb_prop in H as [H _]. apply Z.eqb_eq in H.
  pose proof (digits2_pos_upper m) as Hu.
  pose proof (digits2_pos_lower m) as Hl.
  assert (Hd : (Zpos (digits2_pos m) <= 53)%Z) by lia.
  split; [|split].
  - eapply Z.lt_le_trans; [exact Hu|]. apply Z.pow_le_mono_r; lia.
  - intros He. assert (Zpos (digits2_pos m) = 53%Z) as Hd53 by lia.
    rewrite Hd53 in Hl. exact Hl.
  - lia.
Qed.

Lemma Qpower2_pos (e : Z) : (0 < 2 ^ e)%Q.
Proof. apply Qpower_0_lt. reflexivity. Qed.

Lemma Qpower2_split (e1 e2 : Z) :
  (e1 <= e2)%Z -> (2 ^ e2 == inject_Z (2 ^ (e2 - e1)) * 2 ^ e1)%Q.
Proof.
  intros H. replace e2 with ((e2 - e1) + e1)%Z at 1 by lia.
  rewrite Qpower_plus by discriminate.
  rewrite Zpower_Qpower by lia. reflexivity.
Qed.

(** Magnitudes of two canonical binary64 mantissa/exponent pairs compare
    lexicographically, exponent first. *)
Lemma mag_compare (m1 m2 : positive) (e1 e2 : Z) :
  bounded prec emax m1 e1 = true ->
  bounded prec emax m2 e2 = true ->
  (inject_Z (Zpos m1) * 2 ^ e1 ?= inject_Z (Zpos m2) * 2 ^ e2)%Q =
  match (e1 ?= e2)%Z with
  | Eq => Pos.compare_cont Eq m1 m2
  | Lt => Lt
  | Gt => Gt
  end.
Proof.
  intros B1 B2.
  destruct (bounded_digits _ _ B1) as (U1 & L1 & E1).
  destruct (bounded_digits _ _ B2) as (U2 & L2 & E2).
  destruct (Z.compare_spec e1 e2) as [Heq | Hlt | Hgt].
  - subst e2. fold (Pos.compare m1 m2).
    pose proof (Qpower2_pos e1) as Hp.
    destruct (Pos.compare_spec m1 m2) as [-> | Hm | Hm].
    + apply (proj1 (Qeq_alt _ _)). reflexivity.
    + apply (proj1 (Qlt_alt _ _)). apply Qmult_lt_compat_r; [exact Hp|].
      rewrite <- Zlt_Qlt. lia.
    + apply (proj1 (Qgt_alt _ _)). apply Qmult_lt_compat_r; [exact Hp|].
      rewrite <- Zlt_Qlt. lia.
  - apply (proj1 (Qlt_alt _ _)). rewrite (Qpower2_split e1 e2) by lia.
    rewrite Qmult_assoc, <- inject_Z_mult.
    apply Qmult_lt_compat_r; [apply Qpower2_pos|].
    rewrite <- Zlt_Qlt.
    assert (2 ^ 1 <= 2 ^ (e2 - e1))%Z by (apply Z.pow_le_mono_r; lia).
    specialize (L2 ltac:(lia)). nia.
  - apply (proj1 (Qgt_alt _ _)). rewrite (Qpower2_split e2 e1) by lia.
    rewrite Qmult_assoc, <- inject_Z_mult.
    apply Qmult_lt_compat_r; [apply Qpower2_pos|].
    rewrite <- Zlt_Qlt.
    assert (2 ^ 1 <= 2 ^ (e1 - e2))%Z by (apply Z.pow_le_mono_r; lia).
    specialize (L1 ltac:(lia)). nia.
Qed.

Lemma mag_pos (m : positive) (e : Z) : (0 < mag m e)%Q.
Proof.
  unfold mag. apply Qmult_lt_0_compat; [|apply Qpower2_pos].
  replace 0%Q with (inject_Z 0) by reflexivity. rewrite <- Zlt_Qlt. lia.
Qed.

Lemma to_Q_finite (s : bool) (m : positive) (e : Z) :
  (to_Q (S754_finite s m e) == if s then - mag m e else mag m e)%Q.
Proof. unfold to_Q, mag. destruct s; ring. Qed.

Lemma Qcompare_opp (a b : Q) : (- a ?= - b)%Q = CompOpp (a ?= b)%Q.
Proof.
  destruct (Qcompare_spec a b) as [H | H | H]; simpl.
  - apply (proj1 (Qeq_alt _ _)). rewrite H. reflexivity.
  - apply (proj1 (Qgt_alt _ _)). lra.
  - apply (proj1 (Qlt_alt _ _)). lra.
Qed.

(** On finite, canonical binary64 values the IEEE comparison is the
    comparison of the rationals they denote. *)
Lemma SFcompare_to_Q (a b : number) :
  valid a = true -> valid b = true ->
  is_finite a = true -> is_finite b = true ->
  SFcompare a b = Some (to_Q a ?= to_Q b)%Q.
Proof.
  intros Va Vb Fa Fb.
  destruct a as [sa | sa | | sa ma ea]; try discriminate;
  destruct b as [sb | sb | | sb mb eb]; try discriminate.
  - reflexivity.
  - simpl SFcompare. f_equal. symmetry.
    unfold to_Q at 1. rewrite to_Q_finite.
    pose proof (mag_pos mb eb).
    destruct sb; [apply (proj1 (Qgt_alt _ _)) | apply (proj1 (Qlt_alt _ _))]; lra.
  - simpl SFcompare. f_equal. symmetry.
    unfold to_Q at 2. rewrite to_Q_finite.
    pose proof (mag_pos ma ea).
    destruct sa; [apply (proj1 (Qlt_alt _ _)) | apply (proj1 (Qgt_alt _ _))]; lra.
  - simpl SFcompare. f_equal. symmetry.
    rewrite !to_Q_finite.
    pose proof (mag_pos ma ea). pose proof (mag_pos mb eb).
    simpl in Va, Vb.
    destruct sa, sb.
    + rewrite Qcompare_opp. unfold mag. rewrite (mag_compare _ _ _ _ Va Vb).
      destruct (ea ?= eb)%Z; reflexivity.
    + apply (proj1 (Qlt_alt _ _)). lra.
    + apply (proj1 (Qgt_alt _ _)). lra.
    + unfold mag. apply (mag_compare _ _ _ _ Va Vb).
Qed.

Lemma not_gt_to_Q (a b : number) :
  valid a = true -> valid b = true ->
  is_finite a = true -> is_finite b = true ->
  gt a b = false -> (to_Q a <= to_Q b)%Q.
Proof.
  intros Va Vb Fa Fb. unfold gt, SFltb.
  rewrite (SFcompare_to_Q b a Vb Va Fb Fa).
  destruct (Qcompare_spec (to_Q b) (to_Q a)) as [H | H | H]; intros; try discriminate; lra.
Qed.

(** Swapping the operands of a comparison reverses its result. *)
Lemma SFcompare_swap (a b : number) :
  SFcompare b a = CompOpp <$> SFcompare a b.
Proof.
  destruct a as [sa | sa | | sa ma ea], b as [sb | sb | | sb mb eb];
    try reflexivity;
    try (destruct sa; reflexivity);
    try (destruct sb; reflexivity);
    try (destruct sa, sb; reflexivity).
  simpl. f_equal.
  destruct sa, sb; try reflexivity.
  - rewrite (Z.compare_antisym ea eb).
    destruct (ea ?= eb)%Z; simpl; try reflexivity.
    rewrite (Pos.compare_cont_antisym ma mb Eq). reflexivity.
  - rewrite (Z.compare_antisym ea eb).
    destruct (ea ?= eb)%Z; simpl; try reflexivity.
    rewrite (Pos.compare_cont_antisym ma mb Eq). reflexivity.
Qed.

Lemma le_negb_gt (a b : number) :
  a <> NaN -> b <> NaN -> le a b = negb (gt a b).
Proof.
  intros Ha Hb. unfold le, gt, SFleb, SFltb.
  rewrite (SFcompare_swap a b).
  destruct (SFcompare a b) as [[]|] eqn:E; try reflexivity.
  exfalso. unfold NaN in *.
  destruct a, b; try congruence; discriminate E.
Qed.

End NumberFacts.

(** ** The frame callback *)

Section FrameFacts.

Lemma bound_30_eq :
  div lit_1 lit_30 = S754_finite false 4803839602528529 (-57).
Proof. vm_compute. reflexivity. Qed.

Lemma bound_55_eq :
  div lit_1 lit_55 = S754_finite false 5240552293667486 (-58).
Proof. vm_compute. reflexivity. Qed.

(** Both thresholds are the binary64 values just below 1/30 and 1/55. *)
Lemma bound_30_below : (to_Q (div lit_1 lit_30) < 1 # 30)%Q.
Proof. rewrite bound_30_eq. vm_compute. reflexivity. Qed.

Lemma bound_55_below : (to_Q (div lit_1 lit_55) < 1 # 55)%Q.
Proof. rewrite bound_55_eq. vm_compute. reflexivity. Qed.


(** Against a positive finite bound, [Math.min] picks the bound exactly when
    the bound is below the other argument. *)
Lemma Math_min_finite (r : number) (m : positive) (e : Z) :
  Math_min r (S754_finite false m e)
  = if lt (S754_finite false m e) r then S754_finite false m e else r.
Proof. destruct r as [[] | | |]; reflexivity. Qed.

Lemma Math_min_30 (r : number) :
  Math_min r (div lit_1 lit_30)
  = if gt r (div lit_1 lit_30) then div lit_1 lit_30 else r.
Proof. rewrite bound_30_eq. apply Math_min_finite. Qed.

(** A number above the clamp bound is above the sub-step threshold. *)
Lemma gt_30_gt_55 (r : number) :
  gt r (div lit_1 lit_30) = true -> gt r (div lit_1 lit_55) = true.
Proof.
  rewrite bound_30_eq, bound_55_eq. unfold gt, SFltb.
  destruct r as [s | s | | s m e]; cbn -[Z.compare Pos.compare_cont];
    try (intros; discriminate).
  - intros Hs. exact Hs.
  - destruct s; [intros; discriminate |].
    destruct (Z.compare_spec (-57) e) as [He | He | He];
      destruct (Z.compare_spec (-58) e) as [He' | He' | He'];
      intros; try lia; try reflexivity; discriminate.
Qed.

Lemma useFrame_eq {W} `{JoltEngine W} (delta : number) (s : State W) :
  let deltaTime := Math_min delta (div lit_1 lit_30) in
  let numSteps := if gt deltaTime (div lit_1 lit_55) then 2%Z else 1%Z in
  Physics_useFrame delta s
  = (mkState (Step deltaTime numSteps (world s)) (bodies s)
       (map_fold (sync_record (Step deltaTime numSteps (world s)))
          (scene s) (bodies s))
       (trace s ++ [E_Step deltaTime numSteps]), inr tt).
Proof. reflexivity. Qed.

(** The sub-step count computed from the clamped time is the one the
    unclamped time determines. *)
Lemma numSteps_raw (r : number) :
  gt (Math_min r (div lit_1 lit_30)) (div lit_1 lit_55)
  = gt r (div lit_1 lit_55).
Proof.
  rewrite Math_min_30.
  destruct (gt r (div lit_1 lit_30)) eqn:E; [| reflexivity].
  rewrite (gt_30_gt_55 r E). vm_compute. reflexivity.
Qed.

(** The clamped time of a frame with [rawDelta >= 0]: finite, canonical, and
    not above the clamp bound. *)
Lemma clamp_finite (r : number) :
  ge r lit_0 = true -> valid r = true ->
  let dt := Math_min r (div lit_1 lit_30) in
  valid dt = true /\ is_finite dt = true /\
  (to_Q dt <= to_Q (div lit_1 lit_30))%Q.
Proof.
  intros Hge Hv dt. subst dt.
  rewrite Math_min_30.
  destruct (gt r (div lit_1 lit_30)) eqn:E.
  - rewrite bound_30_eq. repeat split. apply Qle_refl.
  - assert (Hf : is_finite r = true).
    { destruct r as [s | s | | s m e]; try reflexivity; try discriminate Hge.
      destruct s; [discriminate Hge | discriminate E]. }
    repeat split; try assumption.
    apply not_gt_to_Q; try assumption; rewrite bound_30_eq; reflexivity.
Qed.

(** No binary64 value lies strictly between the threshold constant and the
    rational 1/55: a finite number is above the constant exactly when the
    rational it denotes is above 1/55. *)
Lemma gt_55_iff_Q (r : number) :
  valid r = true -> is_finite r = true ->
  gt r (div lit_1 lit_55) = true <-> (1 # 55 < to_Q r)%Q.
Proof.
  intros Hv Hf. split.
  - rewrite bound_55_eq. unfold gt, SFltb.
    destruct r as [s | s | | s m e]; try discriminate Hf;
      cbn -[Z.compare Pos.compare_cont to_Q]; [intros; discriminate |].
    destruct s; [intros; discriminate |].
    simpl in Hv. destruct (bounded_digits _ _ Hv) as (Hu & Hl & He).
    rewrite to_Q_finite. unfold mag.
    destruct (Z.compare_spec (-58) e) as [He' | He' | He'].
    + subst e. fold (Pos.compare 5240552293667486 m).
      destruct (Pos.compare_spec 5240552293667486 m) as [Hm | Hm | Hm];
        intros; try discriminate.
      assert (Hm' : (inject_Z 5240552293667487 <= inject_Z (Zpos m))%Q)
        by (rewrite <- Zle_Qle; lia).
      change (2 ^ (-58))%Q with (1 # 288230376151711744)%Q.
      change (inject_Z 5240552293667487) with (5240552293667487 # 1)%Q in Hm'.
      lra.
    + intros _.
      rewrite (Qpower2_split (-57) e) by lia.
      rewrite Qmult_assoc, <- inject_Z_mult.
      assert (HK : (inject_Z 4503599627370496
                    <= inject_Z (Zpos m * 2 ^ (e - -57)))%Q).
      { rewrite <- Zle_Qle.
        assert (2 ^ 0 <= 2 ^ (e - -57))%Z by (apply Z.pow_le_mono_r; lia).
        specialize (Hl ltac:(lia)). nia. }
      change (2 ^ (-57))%Q with (1 # 144115188075855872)%Q.
      change (inject_Z 4503599627370496) with (4503599627370496 # 1)%Q in HK.
      lra.
    + intros; discriminate.
  - intros Hq. unfold gt, SFltb.
    rewrite SFcompare_to_Q; try assumption;
      try (rewrite bound_55_eq; reflexivity).
    pose proof bound_55_below as Hb.
    rewrite (proj1 (Qlt_alt _ _)); [reflexivity | lra].
Qed.

End FrameFacts.

(** * The claims *)

(** ** Frame stepping *)



(** C2: the number of sub-steps of a frame tick is 2 when [rawDelta > 1/55]
    and 1 otherwise, although the code tests the clamped time; for a finite
    [rawDelta] the test against the number [1.0 / 55.0] agrees with the
    comparison of rationals against 1/55. *)
Theorem C2_substep_count {W} `{JoltEngine W}
    (rawDelta : number) (s : State W) :
  exists deltaTime numSteps s',
    Physics_useFrame rawDelta s = (s', inr tt) /\
    world s' = Step deltaTime numSteps (world s) /\
    trace s' = trace s ++ [E_Step deltaTime numSteps] /\
    numSteps = spec_numSteps rawDelta /\
    (gt rawDelta (div lit_1 lit_55) = true -> numSteps = 2%Z) /\
    (le rawDelta (div lit_1 lit_55) = true -> numSteps = 1%Z) /\
    (valid rawDelta = true -> is_finite rawDelta = true ->
     (numSteps = 2%Z <-> (1 # 55 < to_Q rawDelta)%Q) /\
     (numSteps = 1%Z <-> (to_Q rawDelta <= 1 # 55)%Q)).
Proof.
  eexists _, _, _. split; [apply useFrame_eq |].
  split; [reflexivity |]. split; [reflexivity |].
  rewrite numSteps_raw. unfold spec_numSteps.
  split; [reflexivity |]. split; [| split].
  - intros ->. reflexivity.
  - intros Hle.
    assert (Hnan : rawDelta <> NaN) by (intros ->; discriminate Hle).
    rewrite le_negb_gt in Hle;
      [| exact Hnan | rewrite bound_55_eq; discriminate].
    destruct (gt rawDelta (div lit_1 lit_55)); [discriminate Hle | reflexivity].
  - intros Hv Hf. pose proof (gt_55_iff_Q rawDelta Hv Hf) as [Hq1 Hq2].
    destruct (gt rawDelta (div lit_1 lit_55)).
    + specialize (Hq1 eq_refl). split; split; intros; try reflexivity;
        try discriminate; try assumption. lra.
    + split; split; intros; try reflexivity; try discriminate.
      * specialize (Hq2 ltac:(assumption)). discriminate.
      * apply Qnot_lt_le. intros Hc. specialize (Hq2 Hc). discriminate.
Qed.

(** C10: on a frame tick with [rawDelta >= 0], the clamped time divided by
    the number of sub-steps is at most 1/55 second, and at most 1/60 second
    when there are two sub-steps.  The division is the engine's; the bounds
    are on the rationals the numbers denote ([valid] holds of every
    JavaScript number). *)
Theorem C10_substep_duration {W} `{JoltEngine W}
    (rawDelta : number) (s : State W) :
  ge rawDelta lit_0 = true -> valid rawDelta = true ->
  exists deltaTime numSteps s',
    Physics_useFrame rawDelta s = (s', inr tt) /\
    trace s' = trace s ++ [E_Step deltaTime numSteps] /\
    is_finite deltaTime = true /\
    (numSteps = 1%Z \/ numSteps = 2%Z) /\
    (to_Q deltaTime / inject_Z numSteps <= 1 # 55)%Q /\
    (numSteps = 2%Z -> (to_Q deltaTime / inject_Z numSteps <= 1 # 60)%Q).
Proof.
  intros Hge Hv.
  destruct (clamp_finite rawDelta Hge Hv) as (Hvd & Hfd & Hq).
  pose proof bound_30_below as H30. pose proof bound_55_below as H55.
  eexists _, _, _. split; [apply useFrame_eq |]. split; [reflexivity |].
  split; [exact Hfd |].
  destruct (gt (Math_min rawDelta (div lit_1 lit_30)) (div lit_1 lit_55))
    eqn:E.
  - split; [right; reflexivity |].
    assert (to_Q (Math_min rawDelta (div lit_1 lit_30)) / inject_Z 2
            <= 1 # 60)%Q.
    { change (inject_Z 2) with (2 # 1)%Q. apply Qle_shift_div_r; [reflexivity |].
      lra. }
    split; [lra | intros _; assumption].
  - split; [left; reflexivity |].
    assert (Hc : (to_Q (Math_min rawDelta (div lit_1 lit_30))
                  <= to_Q (div lit_1 lit_55))%Q).
    { apply not_gt_to_Q; try assumption; rewrite bound_55_eq; reflexivity. }
    split; [| intros; discriminate].
    change (inject_Z 1) with (1 # 1)%Q. apply Qle_shift_div_r; [reflexivity |].
    lra.
Qed.

(** A frame at 40 Hz: two sub-steps of 1/80 second each. *)
Lemma C10_substep_duration_witness :
  ge (div lit_1 (of_Z 40)) lit_0 = true /\
  valid (div lit_1 (of_Z 40)) = true /\
  exists deltaTime numSteps s',
    Physics_useFrame (div lit_1 (of_Z 40)) (mkState RefEngine.empty ∅ ∅ [])
    = (s', inr tt) /\
    trace s' = [] ++ [E_Step deltaTime numSteps] /\
    is_finite deltaTime = true /\
    (numSteps = 1%Z \/ numSteps = 2%Z) /\
    (to_Q deltaTime / inject_Z numSteps <= 1 # 55)%Q /\
    (numSteps = 2%Z -> (to_Q deltaTime / inject_Z numSteps <= 1 # 60)%Q).
Proof.
  split; [reflexivity |]. split; [reflexivity |].
  apply (C10_substep_duration (div lit_1 (of_Z 40))
           (mkState RefEngine.empty ∅ ∅ [])); reflexivity.
Defined.

(** ** The literals of the shape *)

Section LiteralFacts.

(** [0.5] is [2^52 * 2^-53], and [0.05] is the binary64 value
    [7205759403792794 * 2^-57], the one nearest to 5/100. *)
Lemma lit_0_5_eq : lit_0_5 = S754_finite false 4503599627370496 (-53).
Proof. vm_compute. reflexivity. Qed.

Lemma lit_0_05_eq : lit_0_05 = S754_finite false 7205759403792794 (-57).
Proof. vm_compute. reflexivity. Qed.

End LiteralFacts.

(** ** Mounting and unmounting a rigid body *)

Section RigidBodyFacts.
Context {W : Type} `{JoltEngine W}.

(** What the mount effect does up to the registration, when both the shape
    and the motion class are supported. *)
Lemma useEffect_created (props : RigidBodyProps)
    (ref_current : option THREE.Object3D)
    (s : State W) (shape0 : Shape) (ml : EMotionType * ObjectLayer) :
  RigidBody_shape (shape props) (args props) = inr shape0 ->
  RigidBody_motion (type props) = inr ml ->
  let cs := RigidBody_creationSettings shape0 (position props) ml.1 ml.2 in
  let b := (CreateBody cs (world s)).1 in
  let s1 :=
    mkState (AddBody (GetID b) Activate (CreateBody cs (world s)).2)
      (bodies s) (scene s)
      (trace s ++ [E_CreateBody cs b; E_AddBody (GetID b) Activate]) in
  RigidBody_useEffect props ref_current s
  = match ref_current with
    | Some o =>
        (mkState (world s1) (<[THREE.id o := mkBodyRecord b o]> (bodies s))
           (scene s)
           (trace s1 ++ [E_bodies_set (THREE.id o) (mkBodyRecord b o)]),
         inr b)
    | None => (s1, inl TypeError)
    end.
Proof.
  intros Hs Hm cs b s1.
  unfold RigidBody_useEffect, bind, lift. rewrite Hs, Hm.
  unfold bodyInterface_CreateBody. fold cs.
  subst s1 b. destruct (CreateBody cs (world s)) as [b w] eqn:E.
  destruct ref_current as [o |]; simpl; rewrite <- !app_assoc; reflexivity.
Qed.

(** The same, with the component's scene object in [ref.current]. *)
Lemma useEffect_ok (props : RigidBodyProps) (o : THREE.Object3D)
    (s : State W) (shape0 : Shape) (ml : EMotionType * ObjectLayer) :
  RigidBody_shape (shape props) (args props) = inr shape0 ->
  RigidBody_motion (type props) = inr ml ->
  let cs := RigidBody_creationSettings shape0 (position props) ml.1 ml.2 in
  let b := (CreateBody cs (world s)).1 in
  RigidBody_useEffect props (Some o) s
  = (mkState (AddBody (GetID b) Activate (CreateBody cs (world s)).2)
       (<[THREE.id o := mkBodyRecord b o]> (bodies s))
       (scene s)
       (trace s ++ [E_CreateBody cs b; E_AddBody (GetID b) Activate;
                    E_bodies_set (THREE.id o) (mkBodyRecord b o)]),
     inr b).
Proof.
  intros Hs Hm cs b.
  rewrite (useEffect_created _ _ _ _ _ Hs Hm). simpl.
  rewrite <- app_assoc. reflexivity.
Qed.

(** The mount effect throws an [Error] exactly when the shape or the motion
    class is unsupported, and then it has changed nothing. *)
Lemma useEffect_throw_shape (props : RigidBodyProps)
    (ref_current : option THREE.Object3D) (s : State W) (e : exn) :
  RigidBody_shape (shape props) (args props) = inl e ->
  RigidBody_useEffect props ref_current s = (s, inl e).
Proof.
  intros Hs. unfold RigidBody_useEffect, bind, lift. rewrite Hs. reflexivity.
Qed.

Lemma useEffect_throw_motion (props : RigidBodyProps)
    (ref_current : option THREE.Object3D) (s : State W)
    (shape0 : Shape) (e : exn) :
  RigidBody_shape (shape props) (args props) = inr shape0 ->
  RigidBody_motion (type props) = inl e ->
  RigidBody_useEffect props ref_current s = (s, inl e).
Proof.
  intros Hs Hm. unfold RigidBody_useEffect, bind, lift. rewrite Hs, Hm.
  reflexivity.
Qed.

Lemma useEffect_inv (props : RigidBodyProps)
    (ref_current : option THREE.Object3D)
    (s s' : State W) (r : exn + Body) :
  RigidBody_useEffect props ref_current s = (s', r) ->
  (exists e, r = inl e /\ s' = s) \/
  (exists shape0 ml,
     RigidBody_shape (shape props) (args props) = inr shape0 /\
     RigidBody_motion (type props) = inr ml).
Proof.
  intros Hrun.
  destruct (RigidBody_shape (shape props) (args props)) as [e | shape0] eqn:Hs.
  - rewrite (useEffect_throw_shape _ _ _ _ Hs) in Hrun.
    left. exists e. split; congruence.
  - destruct (RigidBody_motion (type props)) as [e | ml] eqn:Hm.
    + rewrite (useEffect_throw_motion _ _ _ _ _ Hs Hm) in Hrun.
      left. exists e. split; congruence.
    + right. eauto.
Qed.

Lemma cleanup_eq (o : THREE.Object3D) (b : Body) (s : State W) :
  RigidBody_cleanup (Some o) b s
  = (mkState (DestroyBody (GetID b) (world s))
       (delete (THREE.id o) (bodies s)) (scene s)
       (trace s ++ [E_bodies_delete (THREE.id o); E_DestroyBody (GetID b)]),
     inr tt).
Proof.
  unfold RigidBody_cleanup, bind, lift, bodies_delete,
    bodyInterface_DestroyBody.
  simpl. rewrite <- app_assoc. reflexivity.
Qed.

Lemma cleanup_null (b : Body) (s : State W) :
  RigidBody_cleanup None b s = (s, inl TypeError).
Proof. reflexivity. Qed.

Lemma RigidBody_shape_supported (shapeType : string) (a : Args) :
  supported_shape shapeType <-> exists sh, RigidBody_shape shapeType a = inr sh.
Proof.
  unfold supported_shape, RigidBody_shape.
  destruct (String.eqb_spec shapeType "box") as [-> | Hb].
  - split; eauto.
  - destruct (String.eqb_spec shapeType "sphere") as [-> | Hsp].
    + split; eauto.
    + split; [intros [? | ?]; contradiction | intros [? ?]; discriminate].
Qed.

Lemma RigidBody_shape_unsupported (shapeType : string) (a : Args) :
  ~ supported_shape shapeType ->
  RigidBody_shape shapeType a
  = inl (Error ("unsupported shape type " ++ shapeType)%string).
Proof.
  unfold supported_shape, RigidBody_shape. intros Hn.
  destruct (String.eqb_spec shapeType "box") as [-> | Hb];
    [exfalso; apply Hn; left; reflexivity |].
  destruct (String.eqb_spec shapeType "sphere") as [-> | Hsp];
    [exfalso; apply Hn; right; reflexivity | reflexivity].
Qed.

Lemma RigidBody_motion_unsupported (t : string) :
  ~ supported_type t ->
  RigidBody_motion t = inl (Error ("unsupported type " ++ t)%string).
Proof.
  unfold supported_type, RigidBody_motion. intros Hn.
  destruct (String.eqb_spec t "static") as [-> | H1];
    [exfalso; apply Hn; left; reflexivity |].
  destruct (String.eqb_spec t "kinematic") as [-> | H2];
    [exfalso; apply Hn; right; left; reflexivity |].
  destruct (String.eqb_spec t "dynamic") as [-> | H3];
    [exfalso; apply Hn; right; right; reflexivity | reflexivity].
Qed.

Lemma supported_shape_dec (shapeType : string) :
  {supported_shape shapeType} + {~ supported_shape shapeType}.
Proof.
  unfold supported_shape.
  destruct (string_dec shapeType "box"); [left; left; assumption |].
  destruct (string_dec shapeType "sphere"); [left; right; assumption |].
  right. intros [? | ?]; contradiction.
Qed.

End RigidBodyFacts.

(** ** The lifecycle invariant *)

Section LifecycleFacts.
Context {W : Type} `{JoltEngine W}.

Lemma sys_inv_initial (w : W) : sys_inv (initial w).
Proof.
  split; [| split; [| split]].
  - intros k r Hk. simpl in Hk. rewrite lookup_empty in Hk. discriminate.
  - intros m Hm. simpl in Hm. inversion Hm.
  - constructor.
  - intros k r m Hk. simpl in Hk. rewrite lookup_empty in Hk. discriminate.
Qed.

(** Removing the [i]-th element of a list with pairwise distinct images. *)
Lemma NoDup_fmap_delete {A B} (f : A -> B) (l : list A) (i : nat) (x : A) :
  l !! i = Some x -> NoDup (f <$> l) ->
  NoDup (f <$> delete i l) /\
  (forall y, y ∈ delete i l -> y ∈ l /\ f y <> f x).
Proof.
  intros Hi Hnd.
  rewrite delete_take_drop.
  rewrite <- (take_drop_middle l i x Hi) in Hnd.
  rewrite fmap_app, fmap_cons in Hnd.
  apply NoDup_app in Hnd as (Hn1 & Hdisj & Hn2).
  apply NoDup_cons in Hn2 as (Hx2 & Hn2).
  assert (Hx1 : f x ∉ f <$> take i l).
  { intros Hin. apply (Hdisj _ Hin). left. }
  split.
  - rewrite fmap_app. apply NoDup_app. repeat split; try assumption.
    intros z Hz1 Hz2. apply (Hdisj z Hz1). right. exact Hz2.
  - intros y Hy. split.
    + rewrite <- (take_drop_middle l i x Hi).
      apply elem_of_app in Hy as [Hy | Hy]; apply elem_of_app; [left | right];
        [exact Hy | right; exact Hy].
    + intros Heq. apply elem_of_app in Hy as [Hy | Hy].
      * apply Hx1. rewrite <- Heq. apply list_elem_of_fmap_2. exact Hy.
      * apply Hx2. rewrite <- Heq. apply list_elem_of_fmap_2. exact Hy.
Qed.

(** Dropping an element from the list of mounted components, state kept. *)
Lemma sys_inv_forget (s : State W) (l : list Mounted) (i : nat) (m : Mounted) :
  l !! i = Some m -> sys_inv (mkSystem s l) -> sys_inv (mkSystem s (delete i l)).
Proof.
  intros Hi (Hreg & Hlive & Hnd & Hkey). simpl in *.
  destruct (NoDup_fmap_delete _ _ _ _ Hi Hnd) as (Hnd' & Hsub).
  split; [exact Hreg | split; [| split]]; simpl.
  - intros m' Hin. apply Hlive. apply (Hsub m' Hin).
  - exact Hnd'.
  - intros k r m' Hk Hin. apply (Hkey k r m' Hk). apply (Hsub m' Hin).
Qed.

Lemma sys_inv_handle (sys : System W) (ev : Event) :
  sys_inv sys -> sys_inv (handle sys ev).
Proof.
  intros Hinv. pose proof Hinv as (Hreg & Hlive & Hnd & Hkey).
  destruct ev as [props ref_current | i attached | delta]; cbn [handle].
  - destruct (RigidBody_useEffect props ref_current (st sys)) as [s' r] eqn:E.
    destruct (useEffect_inv _ _ _ _ _ E) as [(e & -> & ->) | (sh & ml & Hs & Hm)].
    { destruct sys; exact Hinv. }
    rewrite (useEffect_created _ _ _ _ _ Hs Hm) in E.
    set (cs := RigidBody_creationSettings sh (position props) ml.1 ml.2) in *.
    pose proof (CreateBody_fresh cs (world (st sys))) as Hfresh.
    pose proof (CreateBody_allocated cs (world (st sys))) as Halloc.
    set (b := (CreateBody cs (world (st sys))).1) in *.
    assert (Hgrow : forall x, x ∈ allocated (world (st sys)) ->
                      x ∈ allocated (AddBody (GetID b) Activate
                                       (CreateBody cs (world (st sys))).2)).
    { intros x Hx. rewrite AddBody_allocated, Halloc.
      apply elem_of_union. right. exact Hx. }
    assert (Hnew : GetID b ∈ allocated (AddBody (GetID b) Activate
                                          (CreateBody cs (world (st sys))).2)).
    { rewrite AddBody_allocated, Halloc.
      apply elem_of_union. left. apply elem_of_singleton. reflexivity. }
    destruct ref_current as [o |]; injection E as <- <-.
    + split; [| split; [| split]]; simpl.
      * intros k r Hk. simpl in Hk |- *.
        destruct (decide (THREE.id o = k)) as [<- | Hne].
        -- rewrite lookup_insert_eq in Hk. injection Hk as <-. exact Hnew.
        -- rewrite lookup_insert_ne in Hk by exact Hne.
           apply Hgrow. apply (Hreg k r Hk).
      * intros m Hin.
        apply elem_of_cons in Hin as [-> | Hin]; simpl;
          [exact Hnew | apply Hgrow; apply Hlive; exact Hin].
      * apply NoDup_cons. split; [| exact Hnd].
        intros Hin. apply list_elem_of_fmap in Hin as (m & Hm' & Hin).
        apply Hfresh. rewrite Hm'. apply Hlive. exact Hin.
      * intros k r m Hk Hin Heq.
        destruct (decide (THREE.id o = k)) as [<- | Hne].
        -- rewrite lookup_insert_eq in Hk. injection Hk as <-. simpl in Heq.
           apply elem_of_cons in Hin as [-> | Hin]; [reflexivity |].
           exfalso. apply Hfresh. rewrite <- Heq. apply Hlive. exact Hin.
        -- rewrite lookup_insert_ne in Hk by exact Hne.
           apply elem_of_cons in Hin as [-> | Hin].
           ++ exfalso. apply Hfresh. simpl in Heq. rewrite Heq.
              apply (Hreg k r Hk).
           ++ apply (Hkey k r m Hk Hin Heq).
    + split; [| split; [| split]]; simpl.
      * intros k r Hk. simpl in Hk |- *. apply Hgrow. apply (Hreg k r Hk).
      * intros m Hin. apply Hgrow. apply Hlive. exact Hin.
      * exact Hnd.
      * exact Hkey.
  - destruct (mounted sys !! i) as [m |] eqn:Hi; [| exact Hinv].
    destruct attached; cbv zeta.
    + rewrite cleanup_eq. simpl.
      destruct (NoDup_fmap_delete _ _ _ _ Hi Hnd) as (Hnd' & Hsub).
      assert (Hm : m ∈ mounted sys)
        by (apply list_elem_of_lookup; exists i; exact Hi).
      split; [| split; [| split]]; simpl.
      * intros k r Hk. simpl in Hk |- *.
        apply lookup_delete_Some in Hk as [Hne Hk].
        rewrite DestroyBody_allocated. apply elem_of_difference.
        split; [apply (Hreg k r Hk) |].
        intros Hc. apply elem_of_singleton in Hc.
        apply Hne. apply (Hkey k r m Hk Hm). symmetry. exact Hc.
      * intros m' Hin. destruct (Hsub m' Hin) as [Hin' Hne].
        rewrite DestroyBody_allocated. apply elem_of_difference.
        split; [apply Hlive; exact Hin' |].
        intros Hc. apply elem_of_singleton in Hc. contradiction.
      * exact Hnd'.
      * intros k r m' Hk Hin.
        apply lookup_delete_Some in Hk as [_ Hk].
        apply (Hkey k r m' Hk). apply (Hsub m' Hin).
    + rewrite cleanup_null. simpl.
      apply (sys_inv_forget _ _ _ _ Hi). destruct sys; exact Hinv.
  - split; [| split; [| split]]; simpl; try assumption.
    + intros k r Hk. simpl in Hk |- *.
      rewrite Step_allocated. apply (Hreg k r Hk).
    + intros m Hin. rewrite Step_allocated. apply Hlive. exact Hin.
Qed.

Lemma sys_inv_run (evs : list Event) (sys : System W) :
  sys_inv sys -> sys_inv (run evs sys).
Proof.
  revert sys. induction evs as [| ev evs IH]; intros sys Hinv; simpl.
  - exact Hinv.
  - apply IH. apply sys_inv_handle. exact Hinv.
Qed.

End LifecycleFacts.

(** ** Registry keys and the synchronisation pass *)

Section RegistryMore.
Context {W : Type} `{JoltEngine W}.

Lemma registry_keyed_handle (sys : System W) (ev : Event) :
  registry_keyed (st sys) -> registry_keyed (st (handle sys ev)).
Proof.
  intros Hkey.
  destruct ev as [props ref_current | i a | delta]; cbn [handle].
  - destruct (RigidBody_useEffect props ref_current (st sys)) as [s' r] eqn:E.
    destruct (useEffect_inv _ _ _ _ _ E) as [(e & -> & ->) | (sh & ml & Hs & Hm)];
      [exact Hkey |].
    rewrite (useEffect_created _ _ _ _ _ Hs Hm) in E.
    destruct ref_current as [o |]; injection E as <- <-.
    + intros k r Hk. simpl in Hk.
      destruct (decide (THREE.id o = k)) as [<- | Hne].
      * rewrite lookup_insert_eq in Hk. injection Hk as <-. reflexivity.
      * rewrite lookup_insert_ne in Hk by exact Hne. apply (Hkey k r Hk).
    + exact Hkey.
  - destruct (mounted sys !! i) as [m |]; [| exact Hkey].
    destruct a; cbv zeta.
    + rewrite cleanup_eq. intros k r Hk. simpl in Hk.
      apply lookup_delete_Some in Hk as [_ Hk]. apply (Hkey k r Hk).
    + rewrite cleanup_null. exact Hkey.
  - rewrite useFrame_eq. exact Hkey.
Qed.

(** What the loop over the registry leaves in the scene store, when every
    record is stored under the id of its scene object. *)
Lemma sync_lookup (w : W) (sc : gmap Z THREE.Transform)
    (m : gmap Z BodyRecord) :
  (forall k r, m !! k = Some r -> THREE.id (three r) = k) ->
  forall j,
    map_fold (sync_record w) sc m !! j
    = match m !! j with
      | Some r =>
          Some (THREE.mkTransform
                  (vGetX (GetPosition (body r) w),
                   vGetY (GetPosition (body r) w),
                   vGetZ (GetPosition (body r) w))
                  (qGetX (GetRotation (body r) w),
                   qGetY (GetRotation (body r) w),
                   qGetZ (GetRotation (body r) w),
                   qGetW (GetRotation (body r) w)))
      | None => sc !! j
      end.
Proof.
  apply (map_fold_weak_ind
    (fun (acc : gmap Z THREE.Transform) (m : gmap Z BodyRecord) =>
       (forall k r, m !! k = Some r -> THREE.id (three r) = k) ->
       forall j,
         acc !! j
         = match m !! j with
           | Some r =>
               Some (THREE.mkTransform
                       (vGetX (GetPosition (body r) w),
                        vGetY (GetPosition (body r) w),
                        vGetZ (GetPosition (body r) w))
                       (qGetX (GetRotation (body r) w),
                        qGetY (GetRotation (body r) w),
                        qGetZ (GetRotation (body r) w),
                        qGetW (GetRotation (body r) w)))
           | None => sc !! j
           end)).
  - intros _ j. rewrite lookup_empty. reflexivity.
  - intros i x m' acc Hi IH Hkey j.
    assert (Hix : THREE.id (three x) = i)
      by (apply Hkey; apply lookup_insert_eq).
    assert (Hkey' : forall k r, m' !! k = Some r -> THREE.id (three r) = k).
    { intros k r Hk. apply Hkey.
      rewrite lookup_insert_ne; [exact Hk |]. intros ->. congruence. }
    unfold sync_record. rewrite Hix.
    destruct (decide (i = j)) as [-> | Hne].
    + rewrite !lookup_insert_eq. reflexivity.
    + rewrite !lookup_insert_ne by exact Hne. apply (IH Hkey' j).
Qed.

Lemma registry_keyed_run (evs : list Event) (sys : System W) :
  registry_keyed (st sys) -> registry_keyed (st (run evs sys)).
Proof.
  revert sys. induction evs as [| ev evs IH]; intros sys Hkey; simpl.
  - exact Hkey.
  - apply IH. apply registry_keyed_handle. exact Hkey.
Qed.

Lemma registry_keyed_initial (w : W) : registry_keyed (st (initial w)).
Proof.
  intros k r Hk. simpl in Hk. rewrite lookup_empty in Hk. discriminate Hk.
Qed.

End RegistryMore.

(** ** The registry *)

(** C3, as the code has it: [bodies.set] never fails.  Under a key that is
    already present it replaces the record by the new one; the records
    under other keys, and the world, are untouched. *)
Theorem C3_register_overwrites {W} `{JoltEngine W}
    (s : State W) (key : Z) (value : BodyRecord) :
  exists s',
    bodies_set key value s = (s', inr tt) /\
    bodies s' !! key = Some value /\
    (forall k, k <> key -> bodies s' !! k = bodies s !! k) /\
    world s' = world s /\
    trace s' = trace s ++ [E_bodies_set key value].
Proof.
  eexists. split; [reflexivity |]. simpl. repeat split.
  - apply lookup_insert_eq.
  - intros k Hk. apply lookup_insert_ne. congruence.
Qed.

(** C3 as stated fails: a second [RigidBody] mounted on a scene object whose
    id is already registered does not fail; its record replaces the first
    one, whose body stays allocated. *)
Lemma C3_register_duplicate_counterexample :
  let props :=
    mkRigidBodyProps "dynamic" "box" (BoxShapeArgs lit_1 lit_1 lit_1)
      (lit_0, lit_0, lit_0) in
  let o := THREE.mkObject3D 7 in
  let s0 := mkState RefEngine.empty ∅ ∅ [] in
  let s1 := (RigidBody_useEffect props (Some o) s0).1 in
  let v := mkBodyRecord (mkBody 1) o in
  bodies s1 !! 7%Z = Some (mkBodyRecord (mkBody 0) o) /\
  (bodies_set 7 v s1).2 = inr tt /\
  ~ (exists e, (bodies_set 7 v s1).2 = inl e) /\
  (RigidBody_useEffect props (Some o) s1).2 = inr (mkBody 1) /\
  bodies (RigidBody_useEffect props (Some o) s1).1 !! 7%Z = Some v /\
  size (bodies (RigidBody_useEffect props (Some o) s1).1) = 1 /\
  GetNumBodies (world (RigidBody_useEffect props (Some o) s1).1) = 2.
Proof.
  cbv zeta. split; [vm_compute; reflexivity |].
  split; [reflexivity |].
  split; [intros [e He]; discriminate He |].
  split; [vm_compute; reflexivity |].
  split; [vm_compute; reflexivity |].
  split; vm_compute; reflexivity.
Qed.

(** C4, as the code has it: [bodies.delete] never fails.  It removes the
    record under the key and reports whether there was one (it does not
    return the record); when there was none the registry is unchanged.  The
    records under other keys, and the world, are untouched. *)
Theorem C4_unregister_deletes {W} `{JoltEngine W} (s : State W) (key : Z) :
  exists s',
    bodies_delete key s
    = (s', inr (bool_decide (is_Some (bodies s !! key)))) /\
    bodies s' !! key = None /\
    (forall k, k <> key -> bodies s' !! k = bodies s !! k) /\
    (bodies s !! key = None -> bodies s' = bodies s) /\
    world s' = world s /\
    trace s' = trace s ++ [E_bodies_delete key].
Proof.
  eexists. split; [reflexivity |]. simpl. repeat split.
  - apply lookup_delete_eq.
  - intros k Hk. apply lookup_delete_ne. congruence.
  - intros Hnone. apply delete_id. exact Hnone.
Qed.

(** C4 as stated fails: unregistering an id that is absent is not an error,
    neither in [bodies.delete], which answers [false], nor in the cleanup
    closure, which goes on to destroy the body. *)
Lemma C4_unregister_absent_counterexample :
  let s := mkState (RefEngine.create
                      (RigidBody_creationSettings (SphereShape lit_1)
                         (lit_0, lit_0, lit_0) Dynamic MOVING)
                      RefEngine.empty).2 ∅ ∅ [] in
  let o := THREE.mkObject3D 7 in
  bodies s !! 7%Z = None /\
  (bodies_delete 7 s).2 = inr false /\
  ~ (exists e, (bodies_delete 7 s).2 = inl e) /\
  bodies (bodies_delete 7 s).1 = bodies s /\
  (RigidBody_cleanup (Some o) (mkBody 0) s).2 = inr tt /\
  trace (RigidBody_cleanup (Some o) (mkBody 0) s).1
  = [E_bodies_delete 7; E_DestroyBody 0].
Proof.
  cbv zeta. split; [reflexivity |].
  split; [reflexivity |].
  split; [intros [e He]; discriminate He |].
  split; [reflexivity |].
  split; reflexivity.
Qed.

(** ** Creating and destroying a rigid body *)

(** What the cleanup is written to do, and does when it runs with the scene
    object still in [ref.current]: it undoes the mount.  The record under
    the id is gone, the body is freed, and the set of allocated bodies is
    what it was before the mount. *)
Lemma cleanup_attached_undoes_mount {W} `{JoltEngine W}
    (props : RigidBodyProps) (o : THREE.Object3D)
    (s s1 : State W) (b : Body) :
  RigidBody_useEffect props (Some o) s = (s1, inr b) ->
  exists s2,
    RigidBody_cleanup (Some o) b s1 = (s2, inr tt) /\
    bodies s2 !! THREE.id o = None /\
    (GetID b ∉ allocated (world s2)) /\
    allocated (world s2) = allocated (world s) /\
    GetNumBodies (world s2) = GetNumBodies (world s) /\
    (bodies s !! THREE.id o = None -> bodies s2 = bodies s).
Proof.
  intros Hrun.
  destruct (useEffect_inv _ _ _ _ _ Hrun)
    as [(e & He & _) | (sh & ml & Hs & Hm)]; [discriminate He |].
  rewrite (useEffect_ok _ _ _ _ _ Hs Hm) in Hrun.
  injection Hrun as <- <-.
  set (cs := RigidBody_creationSettings sh (position props) ml.1 ml.2).
  pose proof (CreateBody_fresh cs (world s)) as Hfresh.
  pose proof (CreateBody_allocated cs (world s)) as Halloc.
  assert (Hsame :
    allocated (DestroyBody (GetID (CreateBody cs (world s)).1)
                 (AddBody (GetID (CreateBody cs (world s)).1) Activate
                    (CreateBody cs (world s)).2))
    = allocated (world s)).
  { rewrite DestroyBody_allocated, AddBody_allocated, Halloc.
    apply set_eq. intros x.
    rewrite elem_of_difference, elem_of_union, !elem_of_singleton.
    split; [intros [[-> | Hx] Hne]; [contradiction | exact Hx] |].
    intros Hx. split; [right; exact Hx | intros ->; contradiction]. }
  eexists. split; [apply cleanup_eq |]. simpl.
  split; [apply lookup_delete_eq |].
  split; [rewrite Hsame; exact Hfresh |].
  split; [exact Hsame |].
  split; [unfold GetNumBodies; rewrite Hsame; reflexivity |].
  intros Hnone. rewrite delete_insert_eq. apply delete_id. exact Hnone.
Qed.

(** C5, on the code: a rigid body that is mounted and then removed, with no
    frame in between.  React has reset [ref.current] to [null] by the time
    it runs the cleanup, so the cleanup throws a [TypeError] at
    [ref.current.id], before [bodies.delete] and before [DestroyBody]: the
    component is gone, and the state is the one the mount left.  The record
    is still registered under the id of the scene object, the body is still
    allocated, and the body count is one more than before the mount.  The
    claim asks for no record and for the body count of before the mount. *)
Theorem C5_unmount_leaves_record_and_body {W} `{JoltEngine W}
    (props : RigidBodyProps) (o : THREE.Object3D)
    (s s1 : State W) (b : Body) (l : list Mounted) :
  RigidBody_useEffect props (Some o) s = (s1, inr b) ->
  handle (mkSystem s l) (Mount props (Some o))
  = mkSystem s1 (mkMounted o b :: l) /\
  handle (mkSystem s1 (mkMounted o b :: l)) (Unmount 0 false)
  = mkSystem s1 l /\
  RigidBody_cleanup None b s1 = (s1, inl TypeError) /\
  bodies s1 !! THREE.id o = Some (mkBodyRecord b o) /\
  GetID b ∈ allocated (world s1) /\
  (GetID b ∉ allocated (world s)) /\
  allocated (world s1) = {[ GetID b ]} ∪ allocated (world s) /\
  GetNumBodies (world s1) = S (GetNumBodies (world s)).
Proof.
  intros Hrun.
  split; [cbn [handle st mounted]; rewrite Hrun; reflexivity |].
  split; [reflexivity |].
  split; [apply cleanup_null |].
  destruct (useEffect_inv _ _ _ _ _ Hrun)
    as [(e & He & _) | (sh & ml & Hs & Hm)]; [discriminate He |].
  rewrite (useEffect_ok _ _ _ _ _ Hs Hm) in Hrun.
  injection Hrun as <- <-.
  set (cs := RigidBody_creationSettings sh (position props) ml.1 ml.2).
  pose proof (CreateBody_fresh cs (world s)) as Hfresh.
  pose proof (CreateBody_allocated cs (world s)) as Halloc.
  simpl. fold cs. rewrite AddBody_allocated, Halloc.
  split; [apply lookup_insert_eq |].
  split; [apply elem_of_union; left; apply elem_of_singleton; reflexivity |].
  split; [exact Hfresh |].
  split; [reflexivity |].
  unfold GetNumBodies. rewrite AddBody_allocated, Halloc.
  rewrite size_union.
  - rewrite size_singleton. reflexivity.
  - intros x Hx1 Hx2. apply elem_of_singleton in Hx1. subst x.
    exact (Hfresh Hx2).
Qed.

(** One of the falling boxes of [App], mounted in a world with no body and
    removed at once: the registry holds its record and the world its body. *)
Lemma C5_unmount_leaves_record_and_body_witness :
  let props :=
    mkRigidBodyProps "dynamic" "box" (BoxShapeArgs lit_1 lit_1 lit_1)
      (lit_0, of_Z 10, lit_0) in
  let o := THREE.mkObject3D 11 in
  let s := mkState RefEngine.empty ∅ ∅ [] in
  let s1 := (RigidBody_useEffect props (Some o) s).1 in
  let b := mkBody 0 in
  let sys := run [Mount props (Some o); Unmount 0 false]
               (initial RefEngine.empty) in
  RigidBody_useEffect props (Some o) s = (s1, inr b) /\
  sys = mkSystem s1 [] /\
  GetNumBodies (world s) = 0 /\
  GetNumBodies (world (st sys)) = 1 /\
  map_to_list (bodies (st sys)) = [(11%Z, mkBodyRecord b o)] /\
  trace (st sys)
  = [E_CreateBody
       (RigidBody_creationSettings
          (BoxShape (new_Vec3 lit_0_5 lit_0_5 lit_0_5) lit_0_05)
          (lit_0, of_Z 10, lit_0) Dynamic MOVING) b;
     E_AddBody 0 Activate; E_bodies_set 11 (mkBodyRecord b o)] /\
  handle (mkSystem s []) (Mount props (Some o))
  = mkSystem s1 (mkMounted o b :: []) /\
  handle (mkSystem s1 (mkMounted o b :: [])) (Unmount 0 false)
  = mkSystem s1 [] /\
  RigidBody_cleanup None b s1 = (s1, inl TypeError) /\
  bodies s1 !! THREE.id o = Some (mkBodyRecord b o) /\
  GetID b ∈ allocated (world s1) /\
  (GetID b ∉ allocated (world s)) /\
  allocated (world s1) = {[ GetID b ]} ∪ allocated (world s) /\
  GetNumBodies (world s1) = S (GetNumBodies (world s)).
Proof.
  intros props o s s1 b sys.
  split; [vm_compute; reflexivity |].
  split; [vm_compute; reflexivity |].
  split; [vm_compute; reflexivity |].
  split; [vm_compute; reflexivity |].
  split; [vm_compute; reflexivity |].
  split; [vm_compute; reflexivity |].
  apply (C5_unmount_leaves_record_and_body props o s s1 b []).
  vm_compute. reflexivity.
Defined.

(** C6: for a box with full dimensions [(sx, sy, sz)] the mount effect
    creates the body with a box shape of half extents
    [(sx * 0.5, sy * 0.5, sz * 0.5)] and convex radius [0.05]; for a sphere
    it creates it with a sphere shape of the given radius, unchanged.  The
    two constants are given by their bits: the factor is the number that
    denotes exactly 1/2, and the convex radius is the number nearest to
    5/100, within [2^-58] of it. *)
Theorem C6_shape_factory {W} `{JoltEngine W}
    (props : RigidBodyProps) (o : THREE.Object3D) (s : State W)
    (ml : EMotionType * ObjectLayer) :
  RigidBody_motion (type props) = inr ml ->
  let half := S754_finite false 4503599627370496 (-53) in
  let margin := S754_finite false 7205759403792794 (-57) in
  (valid half = true /\ to_Q half == 1 # 2)%Q /\
  (valid margin = true /\ Qabs (to_Q margin - (5 # 100)) <= 2 ^ (-58))%Q /\
  (forall sx sy sz,
     shape props = "box"%string -> args props = BoxShapeArgs sx sy sz ->
     let box :=
       BoxShape (new_Vec3 (mul sx half) (mul sy half) (mul sz half)) margin in
     RigidBody_shape (shape props) (args props) = inr box /\
     exists cs b s',
       RigidBody_useEffect props (Some o) s = (s', inr b) /\
       mShape cs = box /\
       trace s' = trace s ++ [E_CreateBody cs b; E_AddBody (GetID b) Activate;
                              E_bodies_set (THREE.id o) (mkBodyRecord b o)]) /\
  (forall radius,
     shape props = "sphere"%string -> args props = SphereShapeArgs radius ->
     RigidBody_shape (shape props) (args props) = inr (SphereShape radius) /\
     exists cs b s',
       RigidBody_useEffect props (Some o) s = (s', inr b) /\
       mShape cs = SphereShape radius /\
       trace s' = trace s ++ [E_CreateBody cs b; E_AddBody (GetID b) Activate;
                              E_bodies_set (THREE.id o) (mkBodyRecord b o)]).
Proof.
  intros Hm half margin.
  split; [split; [reflexivity | vm_compute; reflexivity] |].
  split; [split; [reflexivity | vm_compute; intros Hc; discriminate Hc] |].
  split.
  - intros sx sy sz Hb Ha box.
    assert (Hs : RigidBody_shape (shape props) (args props) = inr box).
    { rewrite Hb, Ha. unfold RigidBody_shape. simpl.
      rewrite lit_0_5_eq, lit_0_05_eq. reflexivity. }
    split; [exact Hs |].
    exists (RigidBody_creationSettings box (position props) ml.1 ml.2).
    eexists _, _. split; [apply (useEffect_ok _ _ _ _ _ Hs Hm) |].
    split; reflexivity.
  - intros radius Hb Ha.
    assert (Hs : RigidBody_shape (shape props) (args props)
                 = inr (SphereShape radius))
      by (rewrite Hb, Ha; reflexivity).
    split; [exact Hs |].
    exists (RigidBody_creationSettings (SphereShape radius) (position props)
              ml.1 ml.2).
    eexists _, _. split; [apply (useEffect_ok _ _ _ _ _ Hs Hm) |].
    split; reflexivity.
Qed.

(** The floor of [App]: a static box of 100 by 1 by 100, created with half
    extents 50, 0.5 and 50 and the convex radius 0.05. *)
Lemma C6_shape_factory_witness :
  let props :=
    mkRigidBodyProps "static" "box" (BoxShapeArgs (of_Z 100) lit_1 (of_Z 100))
      (lit_0, of_Z (-1), lit_0) in
  let o := THREE.mkObject3D 12 in
  let s := mkState RefEngine.empty ∅ ∅ [] in
  let half := S754_finite false 4503599627370496 (-53) in
  let margin := S754_finite false 7205759403792794 (-57) in
  RigidBody_motion (type props) = inr (Static, NON_MOVING) /\
  mul (of_Z 100) half = of_Z 50 /\ mul lit_1 half = half /\
  (valid half = true /\ to_Q half == 1 # 2)%Q /\
  (valid margin = true /\ Qabs (to_Q margin - (5 # 100)) <= 2 ^ (-58))%Q /\
  exists cs b s',
    RigidBody_useEffect props (Some o) s = (s', inr b) /\
    mShape cs
    = BoxShape
        (new_Vec3 (mul (of_Z 100) half) (mul lit_1 half)
           (mul (of_Z 100) half)) margin /\
    trace s' = trace s ++ [E_CreateBody cs b; E_AddBody (GetID b) Activate;
                           E_bodies_set (THREE.id o) (mkBodyRecord b o)].
Proof.
  intros props o s half margin.
  split; [reflexivity |]. split; [vm_compute; reflexivity |].
  split; [vm_compute; reflexivity |].
  pose proof (C6_shape_factory props o s (Static, NON_MOVING) eq_refl)
    as (Hh & Hr & Hbox & _).
  split; [exact Hh |]. split; [exact Hr |].
  exact (proj2 (Hbox (of_Z 100) lit_1 (of_Z 100) eq_refl eq_refl)).
Defined.

(** C7: for each of the three motion classes the body is created with the
    motion type and the object layer of the mapping (static: [Static],
    [NON_MOVING]; kinematic: [Kinematic], [MOVING]; dynamic: [Dynamic],
    [MOVING]), and the next thing the effect does is to add that body to the
    world with [Activate]. *)
Theorem C7_motion_mapping {W} `{JoltEngine W}
    (mc : MotionClass) (props : RigidBodyProps)
    (o : THREE.Object3D) (s : State W) (shape0 : Shape) :
  type props = MotionClass_name mc ->
  RigidBody_shape (shape props) (args props) = inr shape0 ->
  RigidBody_motion (type props) = inr (spec_motion_pair mc) /\
  exists cs b s',
    RigidBody_useEffect props (Some o) s = (s', inr b) /\
    mMotionType cs = (spec_motion_pair mc).1 /\
    mObjectLayer cs = (spec_motion_pair mc).2 /\
    b = (CreateBody cs (world s)).1 /\
    world s' = AddBody (GetID b) Activate (CreateBody cs (world s)).2 /\
    trace s' = trace s ++ [E_CreateBody cs b; E_AddBody (GetID b) Activate;
                           E_bodies_set (THREE.id o) (mkBodyRecord b o)].
Proof.
  intros Ht Hs.
  assert (Hm : RigidBody_motion (type props) = inr (spec_motion_pair mc))
    by (rewrite Ht; destruct mc; reflexivity).
  split; [exact Hm |].
  exists (RigidBody_creationSettings shape0 (position props)
            (spec_motion_pair mc).1 (spec_motion_pair mc).2).
  eexists _, _. split; [apply (useEffect_ok _ _ _ _ _ Hs Hm) |].
  repeat split; reflexivity.
Qed.

(** A kinematic sphere. *)
Lemma C7_motion_mapping_witness :
  let props :=
    mkRigidBodyProps "kinematic" "sphere" (SphereShapeArgs lit_1)
      (lit_0, lit_0, lit_0) in
  let o := THREE.mkObject3D 3 in
  let s := mkState RefEngine.empty ∅ ∅ [] in
  type props = MotionClass_name MC_Kinematic /\
  RigidBody_shape (shape props) (args props) = inr (SphereShape lit_1) /\
  RigidBody_motion (type props) = inr (Kinematic, MOVING) /\
  exists cs b s',
    RigidBody_useEffect props (Some o) s = (s', inr b) /\
    mMotionType cs = Kinematic /\
    mObjectLayer cs = MOVING /\
    b = (CreateBody cs (world s)).1 /\
    world s' = AddBody (GetID b) Activate (CreateBody cs (world s)).2 /\
    trace s' = trace s ++ [E_CreateBody cs b; E_AddBody (GetID b) Activate;
                           E_bodies_set (THREE.id o) (mkBodyRecord b o)].
Proof.
  intros props o s.
  split; [reflexivity |]. split; [reflexivity |].
  apply (C7_motion_mapping MC_Kinematic props o s
           (SphereShape lit_1) eq_refl eq_refl).
Defined.

(** C8: when the shape kind is not one of box and sphere, or the motion
    class is not one of static, kinematic and dynamic, the mount effect
    throws an [Error] that names the unsupported value, and the state it
    leaves is the state it started from: no body was created, the registry
    is unchanged and no effect was performed. *)
Theorem C8_unsupported_configuration_fails {W} `{JoltEngine W}
    (props : RigidBodyProps) (ref_current : option THREE.Object3D)
    (s : State W) :
  ~ supported_shape (shape props) \/ ~ supported_type (type props) ->
  exists e,
    RigidBody_useEffect props ref_current s = (s, inl e) /\
    ConfigurationError props e /\
    (~ supported_shape (shape props) ->
     e = Error ("unsupported shape type " ++ shape props)%string).
Proof.
  intros Hbad.
  destruct (supported_shape_dec (shape props)) as [Hsup | Hnot].
  - destruct Hbad as [Hn | Hn]; [contradiction |].
    apply (RigidBody_shape_supported _ (args props)) in Hsup as Hsh.
    destruct Hsh as [sh Hsh].
    exists (Error ("unsupported type " ++ type props)%string).
    split; [| split].
    + apply (useEffect_throw_motion _ _ _ sh); [exact Hsh |].
      apply RigidBody_motion_unsupported. exact Hn.
    + right. reflexivity.
    + intros Hc. contradiction.
  - exists (Error ("unsupported shape type " ++ shape props)%string).
    split; [| split].
    + apply useEffect_throw_shape.
      apply RigidBody_shape_unsupported. exact Hnot.
    + left. reflexivity.
    + intros _. reflexivity.
Qed.

(** A cone is not a supported shape. *)
Lemma C8_unsupported_configuration_fails_witness :
  let props :=
    mkRigidBodyProps "dynamic" "cone" (SphereShapeArgs lit_1)
      (lit_0, lit_0, lit_0) in
  let ref_current := Some (THREE.mkObject3D 5) in
  let s := mkState RefEngine.empty ∅ ∅ [] in
  (~ supported_shape (shape props) \/ ~ supported_type (type props)) /\
  exists e,
    RigidBody_useEffect props ref_current s = (s, inl e) /\
    ConfigurationError props e /\
    (~ supported_shape (shape props) ->
     e = Error ("unsupported shape type " ++ shape props)%string).
Proof.
  intros props ref_current s.
  assert (Hbad : ~ supported_shape (shape props) \/
                 ~ supported_type (type props)).
  { left. intros [Hc | Hc]; discriminate Hc. }
  split; [exact Hbad |].
  exact (C8_unsupported_configuration_fails props ref_current s Hbad).
Defined.

(** C9, on the code: the removal of a rigid body.  React has reset
    [ref.current] to [null] by the time it runs the cleanup of a component
    it removes, so the cleanup leaves by the [TypeError] of
    [ref.current.id], its first step: on that way out neither
    [bodies.delete] nor [DestroyBody] is reached, for whichever mounted
    component.  For a rigid body mounted in any state the program can be in
    and then removed: the component is gone and nothing else has changed,
    the record is still under the id of the scene object and the body is
    still allocated; the next frame performs a [Step] and nothing before
    it, and its synchronisation pass writes the transform of the removed
    scene object.  The claim asks for the removal and then the destruction
    on every way out. *)
Theorem C9_unmount_neither_removes_nor_destroys {W} `{JoltEngine W}
    (w : W) (evs : list Event) (props : RigidBodyProps) (o : THREE.Object3D)
    (delta : number) (shape0 : Shape) (ml : EMotionType * ObjectLayer) :
  RigidBody_shape (shape props) (args props) = inr shape0 ->
  RigidBody_motion (type props) = inr ml ->
  let sys := run evs (initial w) in
  let sys1 := handle sys (Mount props (Some o)) in
  let sys2 := handle sys1 (Unmount 0 false) in
  let sys3 := handle sys2 (Frame delta) in
  (forall (sys' : System W) (i : nat) (m : Mounted),
     mounted sys' !! i = Some m ->
     RigidBody_cleanup None (m_body m) (st sys') = (st sys', inl TypeError) /\
     handle sys' (Unmount i false)
     = mkSystem (st sys') (delete i (mounted sys'))) /\
  exists cs b deltaTime numSteps,
    mounted sys1 = mkMounted o b :: mounted sys /\
    trace (st sys1)
    = trace (st sys) ++ [E_CreateBody cs b; E_AddBody (GetID b) Activate;
                         E_bodies_set (THREE.id o) (mkBodyRecord b o)] /\
    sys2 = mkSystem (st sys1) (mounted sys) /\
    bodies (st sys2) !! THREE.id o = Some (mkBodyRecord b o) /\
    GetID b ∈ allocated (world (st sys2)) /\
    trace (st sys3) = trace (st sys1) ++ [E_Step deltaTime numSteps] /\
    bodies (st sys3) !! THREE.id o = Some (mkBodyRecord b o) /\
    GetID b ∈ allocated (world (st sys3)) /\
    scene (st sys3) !! THREE.id o
    = Some (THREE.mkTransform
              (vGetX (GetPosition b (world (st sys3))),
               vGetY (GetPosition b (world (st sys3))),
               vGetZ (GetPosition b (world (st sys3))))
              (qGetX (GetRotation b (world (st sys3))),
               qGetY (GetRotation b (world (st sys3))),
               qGetZ (GetRotation b (world (st sys3))),
               qGetW (GetRotation b (world (st sys3))))).
Proof.
  intros Hs Hm sys sys1 sys2 sys3.
  split.
  { intros sys' i m Hi. split; [apply cleanup_null |].
    cbn [handle]. rewrite Hi. reflexivity. }
  assert (Hkey1 : registry_keyed (st sys1)).
  { apply registry_keyed_handle. apply registry_keyed_run.
    apply registry_keyed_initial. }
  set (cs := RigidBody_creationSettings shape0 (position props) ml.1 ml.2).
  set (b := (CreateBody cs (world (st sys))).1).
  assert (E1 : sys1
               = mkSystem
                   (mkState
                      (AddBody (GetID b) Activate
                         (CreateBody cs (world (st sys))).2)
                      (<[THREE.id o := mkBodyRecord b o]> (bodies (st sys)))
                      (scene (st sys))
                      (trace (st sys)
                       ++ [E_CreateBody cs b; E_AddBody (GetID b) Activate;
                           E_bodies_set (THREE.id o) (mkBodyRecord b o)]))
                   (mkMounted o b :: mounted sys)).
  { subst sys1. cbn [handle].
    rewrite (useEffect_ok _ _ _ _ _ Hs Hm). reflexivity. }
  assert (E2 : sys2 = mkSystem (st sys1) (mounted sys)).
  { subst sys2. rewrite E1. reflexivity. }
  assert (Hb : GetID b ∈ allocated (world (st sys1))).
  { rewrite E1. simpl. rewrite AddBody_allocated, CreateBody_allocated.
    apply elem_of_union. left. apply elem_of_singleton. reflexivity. }
  assert (Hrec : bodies (st sys1) !! THREE.id o = Some (mkBodyRecord b o)).
  { rewrite E1. simpl. apply lookup_insert_eq. }
  assert (E3 : st sys3 = (Physics_useFrame delta (st sys1)).1).
  { subst sys3. rewrite E2. reflexivity. }
  exists cs, b. eexists _, _.
  split; [rewrite E1; reflexivity |].
  split; [rewrite E1; reflexivity |].
  split; [exact E2 |].
  rewrite E2. cbn [st].
  split; [exact Hrec |]. split; [exact Hb |].
  rewrite E3, useFrame_eq. cbn [fst trace bodies world scene].
  split; [reflexivity |].
  split; [exact Hrec |].
  split; [rewrite Step_allocated; exact Hb |].
  rewrite (sync_lookup _ _ _ Hkey1 (THREE.id o)), Hrec. reflexivity.
Qed.

(** One of the falling boxes of [App], mounted in a world with no body,
    removed, and a frame later: no record was deleted and no body destroyed,
    and the frame has placed the removed scene object at the position of its
    body. *)
Lemma C9_unmount_neither_removes_nor_destroys_witness :
  let props :=
    mkRigidBodyProps "dynamic" "box" (BoxShapeArgs lit_1 lit_1 lit_1)
      (lit_0, of_Z 10, lit_0) in
  let o := THREE.mkObject3D 11 in
  let delta := div lit_1 (of_Z 60) in
  let shape0 := BoxShape (new_Vec3 lit_0_5 lit_0_5 lit_0_5) lit_0_05 in
  let cs0 :=
    RigidBody_creationSettings shape0 (lit_0, of_Z 10, lit_0) Dynamic MOVING in
  let sys := run [] (initial RefEngine.empty) in
  let sys1 := handle sys (Mount props (Some o)) in
  let sys2 := handle sys1 (Unmount 0 false) in
  let sys3 := handle sys2 (Frame delta) in
  RigidBody_shape (shape props) (args props) = inr shape0 /\
  RigidBody_motion (type props) = inr (Dynamic, MOVING) /\
  trace (st sys3)
  = [E_CreateBody cs0 (mkBody 0); E_AddBody 0 Activate;
     E_bodies_set 11 (mkBodyRecord (mkBody 0) o); E_Step delta 1] /\
  mounted sys3 = [] /\
  map_to_list (bodies (st sys3)) = [(11%Z, mkBodyRecord (mkBody 0) o)] /\
  GetNumBodies (world (st sys3)) = 1 /\
  scene (st sys3) !! 11%Z
  = Some (THREE.mkTransform (lit_0, of_Z 10, lit_0)
            (lit_0, lit_0, lit_0, lit_1)) /\
  (forall (sys' : System RefEngine.World) (i : nat) (m : Mounted),
     mounted sys' !! i = Some m ->
     RigidBody_cleanup None (m_body m) (st sys') = (st sys', inl TypeError) /\
     handle sys' (Unmount i false)
     = mkSystem (st sys') (delete i (mounted sys'))) /\
  exists cs b deltaTime numSteps,
    mounted sys1 = mkMounted o b :: mounted sys /\
    trace (st sys1)
    = trace (st sys) ++ [E_CreateBody cs b; E_AddBody (GetID b) Activate;
                         E_bodies_set (THREE.id o) (mkBodyRecord b o)] /\
    sys2 = mkSystem (st sys1) (mounted sys) /\
    bodies (st sys2) !! THREE.id o = Some (mkBodyRecord b o) /\
    GetID b ∈ allocated (world (st sys2)) /\
    trace (st sys3) = trace (st sys1) ++ [E_Step deltaTime numSteps] /\
    bodies (st sys3) !! THREE.id o = Some (mkBodyRecord b o) /\
    GetID b ∈ allocated (world (st sys3)) /\
    scene (st sys3) !! THREE.id o
    = Some (THREE.mkTransform
              (vGetX (GetPosition b (world (st sys3))),
               vGetY (GetPosition b (world (st sys3))),
               vGetZ (GetPosition b (world (st sys3))))
              (qGetX (GetRotation b (world (st sys3))),
               qGetY (GetRotation b (world (st sys3))),
               qGetZ (GetRotation b (world (st sys3))),
               qGetW (GetRotation b (world (st sys3))))).
Proof.
  intros props o delta shape0 cs0 sys sys1 sys2 sys3.
  split; [vm_compute; reflexivity |].
  split; [reflexivity |].
  split; [vm_compute; reflexivity |].
  split; [reflexivity |].
  split; [vm_compute; reflexivity |].
  split; [vm_compute; reflexivity |].
  split; [vm_compute; reflexivity |].
  exact (C9_unmount_neither_removes_nor_destroys RefEngine.empty [] props o
           delta shape0 (Dynamic, MOVING) eq_refl eq_refl).
Defined.

(** The scene of [App] in small: a box and the floor are mounted and two
    frames tick; the cleanup of the floor runs with its [ref] attached, and
    the box is removed, its [ref] reset.  The record and the body of the box
    stay. *)
Example lifecycle_run :
  let box :=
    mkRigidBodyProps "dynamic" "box" (BoxShapeArgs lit_1 lit_1 lit_1)
      (lit_0, of_Z 10, lit_0) in
  let floor :=
    mkRigidBodyProps "static" "box" (BoxShapeArgs (of_Z 100) lit_1 (of_Z 100))
      (lit_0, of_Z (-1), lit_0) in
  let sys :=
    run [Mount box (Some (THREE.mkObject3D 11));
         Mount floor (Some (THREE.mkObject3D 12));
         Frame (div lit_1 (of_Z 60)); Frame (div lit_1 (of_Z 20));
         Unmount 0 true; Unmount 0 false]
      (initial RefEngine.empty) in
  map_to_list (bodies (st sys))
  = [(11%Z, mkBodyRecord (mkBody 0) (THREE.mkObject3D 11))] /\
  elements (allocated (world (st sys))) = [0] /\
  mounted sys = [] /\
  drop 6 (trace (st sys))
  = [E_Step (div lit_1 (of_Z 60)) 1; E_Step (div lit_1 lit_30) 2;
     E_bodies_delete 12; E_DestroyBody 1].
Proof. cbv zeta. repeat split; vm_compute; reflexivity. Qed.

(** * Further properties of the code *)

(** ** The frame callback, beyond the claims *)

Section FrameMore.

Lemma lt_0_not_gt (r : number) (m : positive) (e : Z) :
  lt r lit_0 = true -> gt r (S754_finite false m e) = false.
Proof.
  destruct r as [s | s | | s m' e']; try discriminate;
    destruct s; try discriminate; reflexivity.
Qed.

(** Order is transitive across a positive finite bound: what is above the
    bound stays above it when it grows. *)
Lemma gt_le_trans (a b : number) (m : positive) (e : Z) :
  gt a (S754_finite false m e) = true -> le a b = true ->
  gt b (S754_finite false m e) = true.
Proof.
  unfold gt, le, SFltb, SFleb.
  destruct a as [sa | sa | | sa ma ea]; cbn -[Z.compare Pos.compare_cont];
    try (intros; discriminate).
  - destruct sa; [intros; discriminate |]. intros _.
    destruct b as [sb | [] | | sb mb eb]; cbn; intros; try discriminate;
      reflexivity.
  - destruct sa; [intros; discriminate |].
    destruct b as [sb | sb | | sb mb eb]; cbn -[Z.compare Pos.compare_cont];
      try (intros; discriminate).
    + destruct sb; intros; [discriminate | reflexivity].
    + destruct sb; [intros; discriminate |].
      fold (Pos.compare m ma). fold (Pos.compare ma mb).
      fold (Pos.compare m mb).
      destruct (Z.compare_spec e ea), (Z.compare_spec ea eb),
        (Z.compare_spec e eb); try lia;
        destruct (Pos.compare_spec m ma), (Pos.compare_spec ma mb),
          (Pos.compare_spec m mb); intros; try lia; try discriminate;
        reflexivity.
Qed.

End FrameMore.

(** X2: the clamp is one-sided.  A frame time that is not above
    [1.0 / 30.0] reaches [Step] as it is, so a negative time (a clock that
    went back) is stepped with, in one sub-step; a NaN time reaches [Step]
    as NaN, in one sub-step; a time above the bound, infinity included, is
    replaced by the bound and stepped in two sub-steps. *)
Theorem X2_clamp_is_one_sided {W} `{JoltEngine W}
    (delta : number) (s : State W) :
  exists deltaTime numSteps s',
    Physics_useFrame delta s = (s', inr tt) /\
    trace s' = trace s ++ [E_Step deltaTime numSteps] /\
    (gt delta (div lit_1 lit_30) = false -> deltaTime = delta) /\
    (gt delta (div lit_1 lit_30) = true ->
     deltaTime = div lit_1 lit_30 /\ numSteps = 2%Z) /\
    (lt delta lit_0 = true -> deltaTime = delta /\ numSteps = 1%Z) /\
    (delta = NaN -> deltaTime = NaN /\ numSteps = 1%Z) /\
    (delta = S754_infinity false ->
     deltaTime = div lit_1 lit_30 /\ numSteps = 2%Z).
Proof.
  eexists _, _, _. split; [apply useFrame_eq |]. split; [reflexivity |].
  rewrite numSteps_raw, Math_min_30.
  assert (Hup : gt delta (div lit_1 lit_30) = true ->
                (if gt delta (div lit_1 lit_30)
                 then div lit_1 lit_30 else delta) = div lit_1 lit_30 /\
                (if gt delta (div lit_1 lit_55) then 2%Z else 1%Z) = 2%Z).
  { intros Hgt. rewrite (gt_30_gt_55 _ Hgt), Hgt. split; reflexivity. }
  split; [intros ->; reflexivity |].
  split; [exact Hup |].
  split; [| split].
  - intros Hneg.
    rewrite bound_30_eq, bound_55_eq, !(lt_0_not_gt _ _ _ Hneg).
    split; reflexivity.
  - intros ->. split; reflexivity.
  - intros ->. apply Hup. vm_compute. reflexivity.
Qed.

(** X3: on a finite frame time the clamp is the minimum of rationals: the
    time passed to [Step] denotes the smaller of the rational the frame time
    denotes and the rational [1.0 / 30.0] denotes. *)
Theorem X3_clamp_is_rational_min {W} `{JoltEngine W}
    (delta : number) (s : State W) :
  valid delta = true -> is_finite delta = true ->
  exists deltaTime numSteps s',
    Physics_useFrame delta s = (s', inr tt) /\
    trace s' = trace s ++ [E_Step deltaTime numSteps] /\
    is_finite deltaTime = true /\
    (to_Q deltaTime == Qmin (to_Q delta) (to_Q (div lit_1 lit_30)))%Q.
Proof.
  intros Hv Hf.
  eexists _, _, _. split; [apply useFrame_eq |]. split; [reflexivity |].
  rewrite Math_min_30. unfold gt, SFltb.
  rewrite (SFcompare_to_Q (div lit_1 lit_30) delta); try assumption;
    try (rewrite bound_30_eq; reflexivity).
  destruct (Qcompare_spec (to_Q (div lit_1 lit_30)) (to_Q delta))
    as [Heq | Hlt | Hgt].
  - split; [exact Hf |]. rewrite Q.min_l; [reflexivity |].
    rewrite Heq. apply Qle_refl.
  - split; [rewrite bound_30_eq; reflexivity |].
    rewrite Q.min_r; [reflexivity | apply Qlt_le_weak; exact Hlt].
  - split; [exact Hf |]. rewrite Q.min_l; [reflexivity |].
    apply Qlt_le_weak; exact Hgt.
Qed.

(** A frame at 144 Hz is stepped with its own time. *)
Lemma X3_clamp_is_rational_min_witness :
  let delta := div lit_1 (of_Z 144) in
  valid delta = true /\ is_finite delta = true /\
  exists deltaTime numSteps s',
    Physics_useFrame delta (mkState RefEngine.empty ∅ ∅ []) = (s', inr tt) /\
    trace s' = [] ++ [E_Step deltaTime numSteps] /\
    is_finite deltaTime = true /\
    (to_Q deltaTime == Qmin (to_Q delta) (to_Q (div lit_1 lit_30)))%Q.
Proof.
  intros delta. split; [reflexivity |]. split; [reflexivity |].
  apply (X3_clamp_is_rational_min delta (mkState RefEngine.empty ∅ ∅ []));
    reflexivity.
Defined.

(** X4: stepping is monotone in the frame time: of two frame times, the
    larger one is stepped with a time that is not smaller, in a number of
    sub-steps that is not smaller. *)
Theorem X4_stepping_is_monotone {W} `{JoltEngine W}
    (delta1 delta2 : number) (s1 s2 : State W) :
  le delta1 delta2 = true ->
  exists dt1 n1 s1' dt2 n2 s2',
    Physics_useFrame delta1 s1 = (s1', inr tt) /\
    trace s1' = trace s1 ++ [E_Step dt1 n1] /\
    Physics_useFrame delta2 s2 = (s2', inr tt) /\
    trace s2' = trace s2 ++ [E_Step dt2 n2] /\
    le dt1 dt2 = true /\ (n1 <= n2)%Z.
Proof.
  intros Hle.
  assert (Hn1 : delta1 <> NaN) by (intros ->; discriminate Hle).
  eexists _, _, _, _, _, _.
  split; [apply useFrame_eq |]. split; [reflexivity |].
  split; [apply useFrame_eq |]. split; [reflexivity |].
  rewrite !numSteps_raw, !Math_min_30. split.
  - destruct (gt delta1 (div lit_1 lit_30)) eqn:E1.
    + rewrite bound_30_eq in E1 |- *.
      rewrite (gt_le_trans _ _ _ _ E1 Hle). reflexivity.
    + destruct (gt delta2 (div lit_1 lit_30)) eqn:E2; [| exact Hle].
      rewrite le_negb_gt, E1;
        [reflexivity | exact Hn1 | rewrite bound_30_eq; discriminate].
  - destruct (gt delta1 (div lit_1 lit_55)) eqn:E1.
    + rewrite bound_55_eq in E1 |- *.
      rewrite (gt_le_trans _ _ _ _ E1 Hle). lia.
    + destruct (gt delta2 (div lit_1 lit_55)); lia.
Qed.

(** 60 Hz against 40 Hz: one sub-step against two. *)
Lemma X4_stepping_is_monotone_witness :
  let delta1 := div lit_1 (of_Z 60) in
  let delta2 := div lit_1 (of_Z 40) in
  let s := mkState RefEngine.empty ∅ ∅ [] in
  le delta1 delta2 = true /\
  exists dt1 n1 s1' dt2 n2 s2',
    Physics_useFrame delta1 s = (s1', inr tt) /\
    trace s1' = trace s ++ [E_Step dt1 n1] /\
    Physics_useFrame delta2 s = (s2', inr tt) /\
    trace s2' = trace s ++ [E_Step dt2 n2] /\
    le dt1 dt2 = true /\ (n1 <= n2)%Z.
Proof.
  intros delta1 delta2 s. split; [reflexivity |].
  apply (X4_stepping_is_monotone delta1 delta2 s s). reflexivity.
Defined.

(** ** The shape, beyond the claims *)

Section ShapeMore.

(** Shifting out the 52 zero bits that the product with the mantissa of
    [0.5] appends loses nothing. *)
Lemma shr_52 (m : positive) :
  SpecFloat.iter_pos shr_1 52
    (shr_record_of_loc (Z.pos (Pos.iter xO m 52)) loc_Exact)
  = Build_shr_record (Zpos m) false false.
Proof. reflexivity. Qed.

(** The product of a normal number with [0.5] keeps the mantissa and lowers
    the exponent by one. *)
Lemma halve_normal (s : bool) (m : positive) (e : Z) :
  Zpos (digits2_pos m) = 53%Z -> (-1073 <= e <= 971)%Z ->
  mul (S754_finite s m e) lit_0_5 = S754_finite s m (e - 1).
Proof.
  intros Hd He. rewrite lit_0_5_eq. unfold mul, SFmul.
  rewrite Bool.xorb_false_r.
  rewrite (Pos.mul_comm m).
  change (Pos.mul 4503599627370496 m) with (Pos.iter xO m 52).
  unfold binary_round_aux, shr_fexp.
  assert (Hdig : Zdigits2 (Zpos (Pos.iter xO m 52)) = 105%Z).
  { injection Hd as Hd. cbn. rewrite Hd. reflexivity. }
  rewrite Hdig.
  replace (fexp prec emax (105 + (e + -53)) - (e + -53))%Z with 52%Z
    by (unfold fexp, emin, prec, emax; lia).
  unfold shr. rewrite shr_52.
  cbv iota beta.
  cbn [shr_m loc_of_shr_record round_nearest_even shr_record_of_loc Zdigits2].
  rewrite Hd.
  replace (fexp prec emax (53 + (e + -53 + 52)) - (e + -53 + 52))%Z with 0%Z
    by (unfold fexp, emin, prec, emax; lia).
  cbn [shr_m].
  replace (e + -53 + 52)%Z with (e - 1)%Z by lia.
  replace (e - 1 <=? emax - prec)%Z with true
    by (symmetry; apply Z.leb_le; unfold emax, prec; lia).
  reflexivity.
Qed.

(** A canonical mantissa above the lowest exponent has all 53 bits. *)
Lemma bounded_normal (m : positive) (e : Z) :
  bounded prec emax m e = true -> (-1074 < e)%Z ->
  Zpos (digits2_pos m) = 53%Z /\ (e <= 971)%Z.
Proof.
  unfold bounded, canonical_mantissa, fexp, emin, prec, emax.
  intros Hb He. apply andb_prop in Hb as [Hc Hle].
  apply Z.eqb_eq in Hc. apply Z.leb_le in Hle. lia.
Qed.

Lemma Qabs_to_Q_finite (s : bool) (m : positive) (e : Z) :
  (Qabs (to_Q (S754_finite s m e)) == mag m e)%Q.
Proof.
  rewrite to_Q_finite. pose proof (mag_pos m e) as Hp.
  destruct s; [rewrite Qabs_opp |]; apply Qabs_pos; apply Qlt_le_weak; exact Hp.
Qed.

(** A finite number of magnitude at least [2^-1021] is above the lowest
    exponent. *)
Lemma halvable_exponent (s : bool) (m : positive) (e : Z) :
  bounded prec emax m e = true ->
  (2 ^ (-1021) <= Qabs (to_Q (S754_finite s m e)))%Q -> (-1074 < e)%Z.
Proof.
  intros Hb Hq. destruct (bounded_digits _ _ Hb) as (Hu & _ & He).
  destruct (Z.eq_dec e (-1074)%Z) as [-> | Hne]; [exfalso | lia].
  rewrite Qabs_to_Q_finite in Hq. unfold mag in Hq.
  rewrite (Qpower2_split (-1074) (-1021)) in Hq by lia.
  apply Qmult_le_r in Hq; [| apply Qpower2_pos].
  rewrite <- Zle_Qle in Hq. change (-1021 - -1074)%Z with 53%Z in Hq. lia.
Qed.

(** Halving a halvable length is exact. *)
Lemma halve_exact (d : number) :
  halvable d ->
  is_finite (mul d lit_0_5) = true /\
  (to_Q (mul d lit_0_5) == to_Q d / 2)%Q.
Proof.
  intros (Hv & Hf & Hq).
  destruct d as [s | s | | s m e]; try discriminate Hf.
  - rewrite lit_0_5_eq. split; reflexivity.
  - simpl in Hv.
    assert (He : (-1074 < e)%Z).
    { destruct Hq as [H0 | Hq]; [| exact (halvable_exponent _ _ _ Hv Hq)].
      exfalso. rewrite to_Q_finite in H0. pose proof (mag_pos m e).
      destruct s; lra. }
    destruct (bounded_normal _ _ Hv He) as [Hd Hle].
    rewrite halve_normal by (try exact Hd; lia).
    split; [reflexivity |].
    assert (Hp : (2 ^ e == 2 ^ (e - 1) * 2)%Q).
    { replace e with ((e - 1) + 1)%Z at 1 by lia.
      rewrite Qpower_plus by discriminate. reflexivity. }
    rewrite !to_Q_finite. unfold mag. destruct s; rewrite Hp; field.
Qed.

End ShapeMore.

(** X5: the half extents of a box are exact.  When each full dimension is
    zero or at least [2^-1021] in magnitude, each half extent handed to the
    engine denotes exactly half of the rational the dimension denotes; the
    convex radius denotes 0.05 to within [2^-58]. *)
Theorem X5_half_extents_exact (sx sy sz : number) :
  halvable sx -> halvable sy -> halvable sz ->
  exists hx hy hz radius,
    RigidBody_shape "box" (BoxShapeArgs sx sy sz)
    = inr (BoxShape (new_Vec3 hx hy hz) radius) /\
    (is_finite hx = true /\ to_Q hx == to_Q sx / 2)%Q /\
    (is_finite hy = true /\ to_Q hy == to_Q sy / 2)%Q /\
    (is_finite hz = true /\ to_Q hz == to_Q sz / 2)%Q /\
    (Qabs (to_Q radius - (5 # 100)) <= 2 ^ (-58))%Q.
Proof.
  intros Hx Hy Hz. eexists _, _, _, _. split; [reflexivity |]. simpl.
  split; [exact (halve_exact sx Hx) |].
  split; [exact (halve_exact sy Hy) |].
  split; [exact (halve_exact sz Hz) |].
  vm_compute. intros Hc. discriminate Hc.
Qed.

(** The floor of [App], 100 by 1 by 100. *)
Lemma X5_half_extents_exact_witness :
  halvable (of_Z 100) /\ halvable lit_1 /\
  exists hx hy hz radius,
    RigidBody_shape "box" (BoxShapeArgs (of_Z 100) lit_1 (of_Z 100))
    = inr (BoxShape (new_Vec3 hx hy hz) radius) /\
    (is_finite hx = true /\ to_Q hx == to_Q (of_Z 100) / 2)%Q /\
    (is_finite hy = true /\ to_Q hy == to_Q lit_1 / 2)%Q /\
    (is_finite hz = true /\ to_Q hz == to_Q (of_Z 100) / 2)%Q /\
    (Qabs (to_Q radius - (5 # 100)) <= 2 ^ (-58))%Q.
Proof.
  assert (H100 : halvable (of_Z 100)).
  { split; [reflexivity |]. split; [reflexivity |]. right.
    vm_compute. intros Hc. discriminate Hc. }
  assert (H1 : halvable lit_1).
  { split; [reflexivity |]. split; [reflexivity |]. right.
    vm_compute. intros Hc. discriminate Hc. }
  split; [exact H100 |]. split; [exact H1 |].
  exact (X5_half_extents_exact (of_Z 100) lit_1 (of_Z 100) H100 H1 H100).
Defined.

(** ** The mount effect, beyond the claims *)

(** X6: when [ref.current] is [null] as the effect runs, a supported rigid
    body is created and added to the world before the effect throws a
    [TypeError] at [ref.current.id]: the body count has grown by one, the
    registry is unchanged, and no record of a live registry refers to the new
    body. *)
Theorem X6_mount_with_null_ref_leaks {W} `{JoltEngine W}
    (props : RigidBodyProps) (s : State W)
    (shape0 : Shape) (ml : EMotionType * ObjectLayer) :
  RigidBody_shape (shape props) (args props) = inr shape0 ->
  RigidBody_motion (type props) = inr ml ->
  exists cs b s',
    RigidBody_useEffect props None s = (s', inl TypeError) /\
    trace s' = trace s ++ [E_CreateBody cs b; E_AddBody (GetID b) Activate] /\
    bodies s' = bodies s /\
    GetID b ∈ allocated (world s') /\
    GetNumBodies (world s') = S (GetNumBodies (world s)) /\
    (registry_live s ->
     forall k r, bodies s' !! k = Some r -> GetID (body r) <> GetID b).
Proof.
  intros Hs Hm.
  set (cs := RigidBody_creationSettings shape0 (position props) ml.1 ml.2).
  pose proof (CreateBody_fresh cs (world s)) as Hfresh.
  pose proof (CreateBody_allocated cs (world s)) as Halloc.
  exists cs. eexists _, _.
  split; [apply (useEffect_created _ None _ _ _ Hs Hm) |]. simpl.
  split; [reflexivity |]. split; [reflexivity |].
  rewrite AddBody_allocated. fold cs. rewrite Halloc.
  split; [apply elem_of_union; left; apply elem_of_singleton; reflexivity |].
  split.
  - unfold GetNumBodies. rewrite AddBody_allocated. fold cs. rewrite Halloc.
    rewrite size_union.
    + rewrite size_singleton. reflexivity.
    + intros x Hx1 Hx2. apply elem_of_singleton in Hx1. subst x.
      exact (Hfresh Hx2).
  - intros Hlive k r Hk Heq. apply Hfresh. rewrite <- Heq.
    apply (Hlive k r Hk).
Qed.

(** A box mounted before React has attached the ref. *)
Lemma X6_mount_with_null_ref_leaks_witness :
  let props :=
    mkRigidBodyProps "dynamic" "box" (BoxShapeArgs lit_1 lit_1 lit_1)
      (lit_0, lit_0, lit_0) in
  let s := mkState RefEngine.empty ∅ ∅ [] in
  RigidBody_motion (type props) = inr (Dynamic, MOVING) /\
  exists cs b s',
    RigidBody_useEffect props None s = (s', inl TypeError) /\
    trace s' = trace s ++ [E_CreateBody cs b; E_AddBody (GetID b) Activate] /\
    bodies s' = bodies s /\
    GetID b ∈ allocated (world s') /\
    GetNumBodies (world s') = S (GetNumBodies (world s)) /\
    (registry_live s ->
     forall k r, bodies s' !! k = Some r -> GetID (body r) <> GetID b).
Proof.
  intros props s. split; [reflexivity |].
  exact (X6_mount_with_null_ref_leaks props s _ (Dynamic, MOVING)
           eq_refl eq_refl).
Defined.

(** X7: [args] is not checked against the shape.  A box given the
    one-element [args] of a sphere is created and registered with the half
    extents of y and z NaN; a sphere given the three-element [args] of a box
    takes the first of them as its radius. *)
Theorem X7_args_of_the_other_shape {W} `{JoltEngine W}
    (props : RigidBodyProps) (o : THREE.Object3D) (s : State W)
    (ml : EMotionType * ObjectLayer) :
  RigidBody_motion (type props) = inr ml ->
  (forall radius,
     shape props = "box"%string -> args props = SphereShapeArgs radius ->
     exists cs b s',
       RigidBody_useEffect props (Some o) s = (s', inr b) /\
       bodies s' !! THREE.id o = Some (mkBodyRecord b o) /\
       In (E_CreateBody cs b) (trace s') /\
       mShape cs
       = BoxShape (new_Vec3 (mul radius lit_0_5) NaN NaN) lit_0_05) /\
  (forall a0 a1 a2,
     shape props = "sphere"%string -> args props = BoxShapeArgs a0 a1 a2 ->
     exists cs b s',
       RigidBody_useEffect props (Some o) s = (s', inr b) /\
       bodies s' !! THREE.id o = Some (mkBodyRecord b o) /\
       In (E_CreateBody cs b) (trace s') /\
       mShape cs = SphereShape a0).
Proof.
  intros Hm. split.
  - intros radius Hb Ha.
    assert (Hs : RigidBody_shape (shape props) (args props)
                 = inr (BoxShape (new_Vec3 (mul radius lit_0_5) NaN NaN)
                          lit_0_05))
      by (rewrite Hb, Ha; reflexivity).
    eexists (RigidBody_creationSettings _ (position props) ml.1 ml.2), _, _.
    split; [apply (useEffect_ok _ _ _ _ _ Hs Hm) |]. simpl.
    split; [apply lookup_insert_eq |]. split; [| reflexivity].
    apply in_or_app. right. left. reflexivity.
  - intros a0 a1 a2 Hb Ha.
    assert (Hs : RigidBody_shape (shape props) (args props)
                 = inr (SphereShape a0))
      by (rewrite Hb, Ha; reflexivity).
    eexists (RigidBody_creationSettings _ (position props) ml.1 ml.2), _, _.
    split; [apply (useEffect_ok _ _ _ _ _ Hs Hm) |]. simpl.
    split; [apply lookup_insert_eq |]. split; [| reflexivity].
    apply in_or_app. right. left. reflexivity.
Qed.

(** A dynamic box with the [args] of a sphere. *)
Lemma X7_args_of_the_other_shape_witness :
  let props :=
    mkRigidBodyProps "dynamic" "box" (SphereShapeArgs lit_1)
      (lit_0, lit_0, lit_0) in
  let o := THREE.mkObject3D 4 in
  let s := mkState RefEngine.empty ∅ ∅ [] in
  RigidBody_motion (type props) = inr (Dynamic, MOVING) /\
  exists cs b s',
    RigidBody_useEffect props (Some o) s = (s', inr b) /\
    bodies s' !! THREE.id o = Some (mkBodyRecord b o) /\
    In (E_CreateBody cs b) (trace s') /\
    mShape cs = BoxShape (new_Vec3 (mul lit_1 lit_0_5) NaN NaN) lit_0_05.
Proof.
  intros props o s. split; [reflexivity |].
  apply (X7_args_of_the_other_shape props o s (Dynamic, MOVING) eq_refl);
    reflexivity.
Defined.

(** ** The registry over the life of the scene *)

(** X8: in every state that mounts, unmounts and frames lead to from the
    initial one, each record of the registry is stored under the id of the
    scene object it holds. *)
Theorem X8_registry_keyed_by_object_id {W} `{JoltEngine W}
    (w : W) (evs : list Event) :
  registry_keyed (st (run evs (initial w))).
Proof.
  assert (Hgen : forall sys : System W,
            registry_keyed (st sys) -> registry_keyed (st (run evs sys))).
  { induction evs as [| ev evs IH]; intros sys Hkey; simpl; [exact Hkey |].
    apply IH. apply registry_keyed_handle. exact Hkey. }
  apply Hgen. intros k r Hk. simpl in Hk. rewrite lookup_empty in Hk.
  discriminate Hk.
Qed.

(** X9: the synchronisation pass of a frame.  When each record is stored
    under the id of its scene object, after the frame the scene object of
    every record has the position and the rotation that the engine reports
    for the record's body in the stepped world, and the transform of every
    scene object that has no record is left as it was. *)
Theorem X9_frame_syncs_every_record {W} `{JoltEngine W}
    (delta : number) (s : State W) :
  registry_keyed s ->
  exists s',
    Physics_useFrame delta s = (s', inr tt) /\
    (forall k r,
       bodies s !! k = Some r ->
       exists t,
         scene s' !! THREE.id (three r) = Some t /\
         THREE.position t
         = (vGetX (GetPosition (body r) (world s')),
            vGetY (GetPosition (body r) (world s')),
            vGetZ (GetPosition (body r) (world s'))) /\
         THREE.quaternion t
         = (qGetX (GetRotation (body r) (world s')),
            qGetY (GetRotation (body r) (world s')),
            qGetZ (GetRotation (body r) (world s')),
            qGetW (GetRotation (body r) (world s')))) /\
    (forall j, bodies s !! j = None -> scene s' !! j = scene s !! j).
Proof.
  intros Hkey. eexists. split; [apply useFrame_eq |]. simpl. split.
  - intros k r Hk. eexists. rewrite (Hkey k r Hk).
    rewrite (sync_lookup _ _ _ Hkey k), Hk.
    split; [reflexivity |]. split; reflexivity.
  - intros j Hj. rewrite (sync_lookup _ _ _ Hkey j), Hj. reflexivity.
Qed.

(** A frame after the floor of [App] was mounted: the floor's scene object
    is placed at the floor's position. *)
Lemma X9_frame_syncs_every_record_witness :
  let floor :=
    mkRigidBodyProps "static" "box" (BoxShapeArgs (of_Z 100) lit_1 (of_Z 100))
      (lit_0, of_Z (-1), lit_0) in
  let s := st (run [Mount floor (Some (THREE.mkObject3D 12))]
                 (initial RefEngine.empty)) in
  let delta := div lit_1 (of_Z 60) in
  registry_keyed s /\
  scene (Physics_useFrame delta s).1 !! 12%Z
  = Some (THREE.mkTransform (lit_0, of_Z (-1), lit_0)
            (lit_0, lit_0, lit_0, lit_1)) /\
  exists s',
    Physics_useFrame delta s = (s', inr tt) /\
    (forall k r,
       bodies s !! k = Some r ->
       exists t,
         scene s' !! THREE.id (three r) = Some t /\
         THREE.position t
         = (vGetX (GetPosition (body r) (world s')),
            vGetY (GetPosition (body r) (world s')),
            vGetZ (GetPosition (body r) (world s'))) /\
         THREE.quaternion t
         = (qGetX (GetRotation (body r) (world s')),
            qGetY (GetRotation (body r) (world s')),
            qGetZ (GetRotation (body r) (world s')),
            qGetW (GetRotation (body r) (world s')))) /\
    (forall j, bodies s !! j = None -> scene s' !! j = scene s !! j).
Proof.
  intros floor s delta.
  assert (Hkey : registry_keyed s).
  { intros k r Hk.
    destruct (decide (k = 12%Z)) as [-> | Hne].
    - vm_compute in Hk. injection Hk as <-. reflexivity.
    - exfalso. assert (Hnone : bodies s !! k = None);
        [| rewrite Hnone in Hk; discriminate Hk].
      change (bodies s)
        with (<[12%Z := mkBodyRecord (mkBody 0) (THREE.mkObject3D 12)]>
                (∅ : gmap Z BodyRecord)).
      rewrite lookup_insert_ne by congruence. apply lookup_empty. }
  split; [exact Hkey |]. split; [vm_compute; reflexivity |].
  exact (X9_frame_syncs_every_record delta s Hkey).
Defined.

(** ** Accounting for bodies and records *)

Section AccountingFacts.
Context {W : Type} `{JoltEngine W}.

(** The images of a list without its [i]-th element, when the images are
    pairwise distinct. *)
Lemma list_to_set_fmap_delete {A} (f : A -> BodyID) (l : list A)
    (i : nat) (x : A) :
  l !! i = Some x -> NoDup (f <$> l) ->
  (list_to_set (f <$> delete i l) : gset BodyID)
  = list_to_set (f <$> l) ∖ {[ f x ]}.
Proof.
  intros Hi Hnd.
  destruct (NoDup_fmap_delete f l i x Hi Hnd) as (_ & Hsub).
  apply set_eq. intros y.
  rewrite elem_of_difference, !elem_of_list_to_set, elem_of_singleton.
  rewrite !list_elem_of_fmap. split.
  - intros (z & -> & Hz). destruct (Hsub z Hz) as [Hin Hne].
    split; [exists z; split; [reflexivity | exact Hin] | exact Hne].
  - intros [(z & -> & Hz) Hne]. exists z. split; [reflexivity |].
    rewrite delete_take_drop.
    rewrite <- (take_drop_middle l i x Hi) in Hz.
    apply elem_of_app in Hz as [Hz | Hz]; apply elem_of_app;
      [left; exact Hz |].
    apply elem_of_cons in Hz as [-> | Hz]; [contradiction | right; exact Hz].
Qed.

Lemma accounted_owner_kept (l : list Mounted) (i : nat) (m m' : Mounted)
    (k : Z) :
  l !! i = Some m ->
  m' ∈ l -> THREE.id (m_ref m') = k -> k <> THREE.id (m_ref m) ->
  m' ∈ delete i l.
Proof.
  intros Hi Hin Hid Hne.
  rewrite delete_take_drop.
  rewrite <- (take_drop_middle l i m Hi) in Hin.
  apply elem_of_app in Hin as [Hin | Hin]; apply elem_of_app;
    [left; exact Hin |].
  apply elem_of_cons in Hin as [-> | Hin]; [congruence | right; exact Hin].
Qed.

Lemma accounted_handle (w0 : W) (sys : System W) (ev : Event) :
  attached ev = true -> accounted w0 sys -> accounted w0 (handle sys ev).
Proof.
  intros Hatt Hacc. pose proof Hacc as (Hall & Hnd & Hnew & Hown).
  destruct ev as [props [o |] | i a | delta]; try discriminate Hatt;
    cbn [handle].
  - destruct (RigidBody_useEffect props (Some o) (st sys)) as [s' r] eqn:E.
    destruct (useEffect_inv _ _ _ _ _ E) as [(e & -> & ->) | (sh & ml & Hs & Hm)].
    { destruct sys; exact Hacc. }
    rewrite (useEffect_ok _ _ _ _ _ Hs Hm) in E. injection E as <- <-.
    set (cs := RigidBody_creationSettings sh (position props) ml.1 ml.2) in *.
    pose proof (CreateBody_fresh cs (world (st sys))) as Hfresh.
    pose proof (CreateBody_allocated cs (world (st sys))) as Halloc.
    set (b := (CreateBody cs (world (st sys))).1) in *.
    rewrite Hall in Hfresh.
    apply not_elem_of_union in Hfresh as [Hf0 Hfm].
    split; [| split; [| split]]; simpl.
    + rewrite AddBody_allocated, Halloc, Hall.
      apply set_eq. intros x.
      rewrite !elem_of_union, elem_of_singleton. tauto.
    + apply NoDup_cons. split; [| exact Hnd].
      intros Hin. apply Hfm. apply elem_of_list_to_set. exact Hin.
    + intros m Hin. apply elem_of_cons in Hin as [-> | Hin];
        [exact Hf0 | apply Hnew; exact Hin].
    + intros k r Hk.
      destruct (decide (THREE.id o = k)) as [<- | Hne].
      * rewrite lookup_insert_eq in Hk. injection Hk as <-.
        eexists. split; [left |]. split; reflexivity.
      * rewrite lookup_insert_ne in Hk by exact Hne.
        destruct (Hown k r Hk) as (m & Hin & Hid & Hb).
        exists m. split; [right; exact Hin | split; assumption].
  - simpl in Hatt. subst a.
    destruct (mounted sys !! i) as [m |] eqn:Hi; [| exact Hacc].
    cbv zeta. rewrite cleanup_eq. simpl.
    destruct (NoDup_fmap_delete _ _ _ _ Hi Hnd) as (Hnd' & Hsub).
    assert (Hm : m ∈ mounted sys)
      by (apply list_elem_of_lookup; exists i; exact Hi).
    split; [| split; [| split]]; simpl.
    + rewrite DestroyBody_allocated, Hall.
      rewrite (list_to_set_fmap_delete _ _ _ _ Hi Hnd).
      specialize (Hnew m Hm).
      apply set_eq. intros x.
      rewrite !elem_of_difference, !elem_of_union, !elem_of_difference,
        !elem_of_singleton.
      split; [intros [[Hx | Hx] Hne]; [left; exact Hx | right; split; assumption] |].
      intros [Hx | [Hx Hne]]; [| split; [right; exact Hx | exact Hne]].
      split; [left; exact Hx | intros ->; contradiction].
    + exact Hnd'.
    + intros m' Hin. apply Hnew. apply (Hsub m' Hin).
    + intros k r Hk. apply lookup_delete_Some in Hk as [Hne Hk].
      destruct (Hown k r Hk) as (m' & Hin & Hid & Hb).
      exists m'. split; [| split; assumption].
      apply (accounted_owner_kept _ _ m m' k Hi Hin Hid). congruence.
  - rewrite useFrame_eq. simpl.
    split; [| split; [| split]]; simpl; try assumption.
    rewrite Step_allocated. exact Hall.
Qed.

Lemma accounted_run (w0 : W) (evs : list Event) (sys : System W) :
  forallb attached evs = true -> accounted w0 sys ->
  accounted w0 (run evs sys).
Proof.
  revert sys. induction evs as [| ev evs IH]; intros sys Hatt Hacc; simpl.
  - exact Hacc.
  - simpl in Hatt. apply andb_prop in Hatt as [Hev Hatt].
    apply IH; [exact Hatt |]. apply accounted_handle; assumption.
Qed.

Lemma accounted_initial (w : W) : accounted w (initial w).
Proof.
  split; [| split; [| split]]; simpl.
  - apply set_eq. intros x. rewrite elem_of_union, elem_of_empty. tauto.
  - constructor.
  - intros m Hm. inversion Hm.
  - intros k r Hk. rewrite lookup_empty in Hk. discriminate Hk.
Qed.

Lemma accounted_count (w0 : W) (sys : System W) :
  accounted w0 sys ->
  GetNumBodies (world (st sys)) = GetNumBodies w0 + length (mounted sys).
Proof.
  intros (Hall & Hnd & Hnew & _).
  unfold GetNumBodies. rewrite Hall, size_union.
  - rewrite size_list_to_set by exact Hnd.
    rewrite length_fmap. reflexivity.
  - intros x Hx0 Hxm. apply elem_of_list_to_set in Hxm.
    apply list_elem_of_fmap in Hxm as (m & -> & Hin).
    exact (Hnew m Hin Hx0).
Qed.

End AccountingFacts.

(** ** What a removal releases *)

Section ConservationFacts.
Context {W : Type} `{JoltEngine W}.

Lemma created_app (tr1 tr2 : list Effect) :
  created (tr1 ++ tr2) = created tr1 + created tr2.
Proof. unfold created. rewrite List.filter_app. apply length_app. Qed.

Lemma destroyed_app (tr1 tr2 : list Effect) :
  destroyed (tr1 ++ tr2) = destroyed tr1 + destroyed tr2.
Proof. unfold destroyed. rewrite List.filter_app. apply length_app. Qed.

Lemma size_grow (X : gset BodyID) (i : BodyID) :
  i ∉ X -> size ({[ i ]} ∪ X) = S (size X).
Proof.
  intros Hi. rewrite size_union.
  - rewrite size_singleton. reflexivity.
  - intros x Hx1 Hx2. apply elem_of_singleton in Hx1. subst x. exact (Hi Hx2).
Qed.

Lemma size_shrink (X : gset BodyID) (i : BodyID) :
  i ∈ X -> S (size (X ∖ {[ i ]})) = size X.
Proof.
  intros Hi. rewrite (union_difference_singleton_L i X Hi) at 2.
  rewrite size_grow; [reflexivity |].
  intros Hc. apply elem_of_difference in Hc as [_ Hc].
  apply Hc. apply elem_of_singleton. reflexivity.
Qed.

(** Each [DestroyBody] of the program frees a body that is allocated, and
    each [CreateBody] allocates a new one. *)
Lemma conserved_handle (w0 : W) (sys : System W) (ev : Event) :
  sys_inv sys -> conserved w0 (st sys) -> conserved w0 (st (handle sys ev)).
Proof.
  intros (_ & Hlive & _ & _) Hc. unfold conserved, GetNumBodies in *.
  destruct ev as [props ref_current | i a | delta]; cbn [handle].
  - destruct (RigidBody_useEffect props ref_current (st sys)) as [s' r] eqn:E.
    destruct (useEffect_inv _ _ _ _ _ E) as [(e & -> & ->) | (sh & ml & Hs & Hm)];
      [exact Hc |].
    rewrite (useEffect_created _ _ _ _ _ Hs Hm) in E.
    set (cs := RigidBody_creationSettings sh (position props) ml.1 ml.2) in *.
    pose proof (CreateBody_fresh cs (world (st sys))) as Hfresh.
    pose proof (CreateBody_allocated cs (world (st sys))) as Halloc.
    destruct ref_current as [o |]; injection E as <- <-; cbn [st world trace];
      rewrite AddBody_allocated, Halloc, (size_grow _ _ Hfresh);
      rewrite ?created_app, ?destroyed_app; cbn; lia.
  - destruct (mounted sys !! i) as [m |] eqn:Hi; [| exact Hc].
    destruct a; cbv zeta.
    + rewrite cleanup_eq. cbn [st fst world trace].
      assert (Hm : m ∈ mounted sys)
        by (apply list_elem_of_lookup; exists i; exact Hi).
      pose proof (size_shrink _ _ (Hlive m Hm)) as Hsz.
      rewrite DestroyBody_allocated, created_app, destroyed_app. cbn. lia.
    + rewrite cleanup_null. exact Hc.
  - rewrite useFrame_eq. cbn [st fst world trace].
    rewrite Step_allocated, created_app, destroyed_app. cbn. lia.
Qed.

Lemma conserved_run (w0 : W) (evs : list Event) (sys : System W) :
  sys_inv sys -> conserved w0 (st sys) -> conserved w0 (st (run evs sys)).
Proof.
  revert sys. induction evs as [| ev evs IH]; intros sys Hinv Hc; simpl.
  - exact Hc.
  - apply IH; [apply sys_inv_handle; exact Hinv |].
    apply conserved_handle; assumption.
Qed.

(** Only a cleanup that sees the scene object reaches [DestroyBody]. *)
Lemma destroyed_handle (sys : System W) (ev : Event) :
  destroyed (trace (st (handle sys ev)))
  <= destroyed (trace (st sys)) + (if is_attached_unmount ev then 1 else 0).
Proof.
  destruct ev as [props ref_current | i a | delta]; cbn [handle].
  - destruct (RigidBody_useEffect props ref_current (st sys)) as [s' r] eqn:E.
    destruct (useEffect_inv _ _ _ _ _ E) as [(e & -> & ->) | (sh & ml & Hs & Hm)];
      [simpl; lia |].
    rewrite (useEffect_created _ _ _ _ _ Hs Hm) in E.
    destruct ref_current as [o |]; injection E as <- <-; cbn [st trace];
      rewrite ?destroyed_app; cbn; lia.
  - destruct (mounted sys !! i) as [m |]; [| simpl; lia].
    destruct a; cbv zeta.
    + rewrite cleanup_eq. cbn [st fst trace]. rewrite destroyed_app. cbn. lia.
    + rewrite cleanup_null. simpl. lia.
  - rewrite useFrame_eq. cbn [st fst trace]. rewrite destroyed_app. cbn. lia.
Qed.

Lemma destroyed_run (evs : list Event) (sys : System W) :
  destroyed (trace (st (run evs sys)))
  <= destroyed (trace (st sys))
     + length (List.filter is_attached_unmount evs).
Proof.
  revert sys. induction evs as [| ev evs IH]; intros sys; simpl.
  - lia.
  - specialize (IH (handle sys ev)).
    pose proof (destroyed_handle sys ev) as Hev.
    destruct (is_attached_unmount ev); simpl; simpl in IH; lia.
Qed.

(** A record leaves the registry only in a cleanup that sees the scene
    object. *)
Lemma registered_kept_handle (sys : System W) (ev : Event) :
  is_attached_unmount ev = false ->
  registered_kept (st sys) -> registered_kept (st (handle sys ev)).
Proof.
  intros Hev Hk.
  destruct ev as [props ref_current | i a | delta]; cbn [handle].
  - destruct (RigidBody_useEffect props ref_current (st sys)) as [s' r] eqn:E.
    destruct (useEffect_inv _ _ _ _ _ E) as [(e & -> & ->) | (sh & ml & Hs & Hm)];
      [exact Hk |].
    rewrite (useEffect_created _ _ _ _ _ Hs Hm) in E.
    destruct ref_current as [o |]; injection E as <- <-;
      intros k v Hin; cbn [st trace bodies] in Hin |- *.
    + apply in_app_or in Hin as [Hin | Hin].
      * apply in_app_or in Hin as [Hin | Hin].
        -- destruct (decide (THREE.id o = k)) as [<- | Hne].
           ++ rewrite lookup_insert_eq. eexists. reflexivity.
           ++ rewrite lookup_insert_ne by exact Hne. apply (Hk k v Hin).
        -- exfalso. destruct Hin as [Hin | [Hin | []]]; discriminate Hin.
      * destruct Hin as [Hin | []]. injection Hin as <- _.
        rewrite lookup_insert_eq. eexists. reflexivity.
    + apply in_app_or in Hin as [Hin | Hin]; [apply (Hk k v Hin) |].
      exfalso. destruct Hin as [Hin | [Hin | []]]; discriminate Hin.
  - simpl in Hev. subst a.
    destruct (mounted sys !! i) as [m |]; [| exact Hk].
    cbv zeta. rewrite cleanup_null. exact Hk.
  - rewrite useFrame_eq. intros k v Hin. cbn [st fst trace bodies] in Hin |- *.
    apply in_app_or in Hin as [Hin | Hin]; [apply (Hk k v Hin) |].
    exfalso. destruct Hin as [Hin | []]. discriminate Hin.
Qed.

Lemma registered_kept_run (evs : list Event) (sys : System W) :
  forallb (fun ev => negb (is_attached_unmount ev)) evs = true ->
  registered_kept (st sys) -> registered_kept (st (run evs sys)).
Proof.
  revert sys. induction evs as [| ev evs IH]; intros sys Hall Hk; simpl.
  - exact Hk.
  - simpl in Hall. apply andb_prop in Hall as [Hev Hall].
    apply IH; [exact Hall |]. apply registered_kept_handle; [| exact Hk].
    destruct (is_attached_unmount ev); [discriminate Hev | reflexivity].
Qed.

Lemma no_attached_unmount (evs : list Event) :
  forallb (fun ev => negb (is_attached_unmount ev)) evs = true ->
  length (List.filter is_attached_unmount evs) = 0.
Proof.
  induction evs as [| ev evs IH]; intros Hall; [reflexivity |].
  simpl in Hall |- *. apply andb_prop in Hall as [Hev Hall].
  destruct (is_attached_unmount ev); [discriminate Hev | exact (IH Hall)].
Qed.

End ConservationFacts.

(** X10: what the removal of rigid bodies releases.  After any sequence of
    mounts, cleanups and frames from the initial state, the body count is
    the initial one plus the number of [CreateBody] calls less the number of
    [DestroyBody] calls (each call frees a body that was allocated, none is
    freed twice), and there are at most as many [DestroyBody] calls as
    cleanups that saw the scene object in [ref.current].  So when every
    cleanup runs with [ref.current] reset, as it does for a component that
    is removed, nothing is released: the body count is the initial one plus
    the number of bodies ever created, and every id under which a record
    was stored still has a record. *)
Theorem X10_removal_releases_nothing {W} `{JoltEngine W}
    (w : W) (evs : list Event) :
  let s := st (run evs (initial w)) in
  GetNumBodies (world s) + destroyed (trace s)
  = GetNumBodies w + created (trace s) /\
  destroyed (trace s) <= length (List.filter is_attached_unmount evs) /\
  (forallb (fun ev => negb (is_attached_unmount ev)) evs = true ->
   destroyed (trace s) = 0 /\
   GetNumBodies (world s) = GetNumBodies w + created (trace s) /\
   forall k v, In (E_bodies_set k v) (trace s) -> is_Some (bodies s !! k)).
Proof.
  intros s.
  assert (Hc : conserved w s).
  { apply conserved_run; [apply sys_inv_initial |].
    unfold conserved. reflexivity. }
  pose proof (destroyed_run evs (initial w)) as Hd. simpl in Hd. fold s in Hd.
  split; [exact Hc |]. split; [exact Hd |].
  intros Hall. rewrite (no_attached_unmount evs Hall) in Hd.
  assert (H0 : destroyed (trace s) = 0) by lia.
  split; [exact H0 |].
  split; [unfold conserved in Hc; lia |].
  apply (registered_kept_run evs (initial w) Hall).
  intros k v Hin. destruct Hin.
Qed.

(** Two boxes are mounted, a frame ticks, the first box is removed and
    another frame ticks: two bodies and two records remain. *)
Lemma X10_removal_releases_nothing_witness :
  let box :=
    mkRigidBodyProps "dynamic" "box" (BoxShapeArgs lit_1 lit_1 lit_1)
      (lit_0, of_Z 10, lit_0) in
  let evs :=
    [Mount box (Some (THREE.mkObject3D 11));
     Mount box (Some (THREE.mkObject3D 12));
     Frame (div lit_1 (of_Z 60)); Unmount 1 false;
     Frame (div lit_1 (of_Z 60))] in
  let w := RefEngine.empty in
  let s := st (run evs (initial w)) in
  forallb (fun ev => negb (is_attached_unmount ev)) evs = true /\
  length (mounted (run evs (initial w))) = 1 /\
  created (trace s) = 2 /\
  GetNumBodies (world s) = 2 /\
  size (bodies s) = 2 /\
  GetNumBodies (world s) + destroyed (trace s)
  = GetNumBodies w + created (trace s) /\
  destroyed (trace s) <= length (List.filter is_attached_unmount evs) /\
  (forallb (fun ev => negb (is_attached_unmount ev)) evs = true ->
   destroyed (trace s) = 0 /\
   GetNumBodies (world s) = GetNumBodies w + created (trace s) /\
   forall k v, In (E_bodies_set k v) (trace s) -> is_Some (bodies s !! k)).
Proof.
  intros box evs w s.
  split; [reflexivity |]. split; [reflexivity |].
  split; [vm_compute; reflexivity |]. split; [vm_compute; reflexivity |].
  split; [vm_compute; reflexivity |].
  exact (X10_removal_releases_nothing w evs).
Defined.

(** ** The scene of [App] *)

Section AppFacts.

#[local] Instance number_eq_dec : EqDecision spec_float.
Proof. solve_decision. Defined.

(** The heights of the hundred boxes are computed without rounding. *)
Lemma App_heights_checked :
  forallb
    (fun idx =>
       bool_decide
         (number_add (of_Z 10) (mul (of_Z (Z.of_nat idx)) (of_Z 2))
          = of_Z (10 + 2 * Z.of_nat idx))
       && Qeq_bool (to_Q (of_Z (10 + 2 * Z.of_nat idx)))
            (inject_Z (10 + 2 * Z.of_nat idx)))
    (seq 0 100) = true.
Proof. vm_compute. reflexivity. Qed.

Lemma App_height (idx : nat) :
  idx < 100 ->
  number_add (of_Z 10) (mul (of_Z (Z.of_nat idx)) (of_Z 2))
  = of_Z (10 + 2 * Z.of_nat idx) /\
  (to_Q (of_Z (10 + 2 * Z.of_nat idx)) == inject_Z (10 + 2 * Z.of_nat idx))%Q.
Proof.
  intros Hidx. pose proof App_heights_checked as Hall.
  rewrite forallb_forall in Hall.
  specialize (Hall idx ltac:(apply in_seq; lia)).
  apply andb_prop in Hall as [Heq Hq].
  split; [exact (bool_decide_eq_true_1 _ Heq) | apply Qeq_bool_eq; exact Hq].
Qed.

Lemma App_lookup_box (random : nat -> number) (idx : nat) :
  idx < 100 -> App random !! idx = Some (App_box random idx).
Proof.
  intros Hidx. unfold App.
  rewrite lookup_app_l by (rewrite length_fmap, length_seq; exact Hidx).
  rewrite list_lookup_fmap, lookup_seq_lt by exact Hidx. reflexivity.
Qed.

Lemma App_lookup_floor (random : nat -> number) :
  App random !! 100 = Some App_floor.
Proof.
  unfold App.
  rewrite lookup_app_r by (rewrite length_fmap, length_seq; lia).
  rewrite length_fmap, length_seq. reflexivity.
Qed.

Lemma App_supported (random : nat -> number) :
  Forall (fun p => supported_shape (shape p) /\ supported_type (type p))
    (App random).
Proof.
  unfold App. apply Forall_app. split.
  - apply Forall_fmap. apply Forall_forall. intros idx _.
    split; [left; reflexivity | right; right; reflexivity].
  - constructor; [| constructor].
    split; [left; reflexivity | left; reflexivity].
Qed.

End AppFacts.

(** X11: the scene that [App] declares, whatever [Math.random] returns.  It
    has 101 rigid bodies, all of a supported shape and motion class: a
    hundred dynamic boxes with half extents 1/2, box [idx] at the height
    [10 + 2 * idx] exactly, and after them a static floor with half height
    1/2 at the height -1.  So at the start every box is above the floor and
    each box is above the one before it, with a gap. *)
Theorem X11_App_scene (random : nat -> number) :
  length (App random) = 101 /\
  Forall (fun p => supported_shape (shape p) /\ supported_type (type p))
    (App random) /\
  (App random !! 100 = Some App_floor /\
   RigidBody_motion (type App_floor) = inr (Static, NON_MOVING) /\
   RigidBody_shape (shape App_floor) (args App_floor)
   = inr (BoxShape (new_Vec3 (of_Z 50) lit_0_5 (of_Z 50)) lit_0_05) /\
   (to_Q lit_0_5 == 1 # 2)%Q /\
   (to_Q (position App_floor).1.2 == -1)%Q) /\
  (forall idx, idx < 100 ->
     exists p,
       App random !! idx = Some p /\
       RigidBody_motion (type p) = inr (Dynamic, MOVING) /\
       RigidBody_shape (shape p) (args p)
       = inr (BoxShape (new_Vec3 lit_0_5 lit_0_5 lit_0_5) lit_0_05) /\
       (position p).1.2 = of_Z (10 + 2 * Z.of_nat idx) /\
       (to_Q (position p).1.2 == inject_Z (10 + 2 * Z.of_nat idx))%Q /\
       (to_Q (position App_floor).1.2 + to_Q lit_0_5
        < to_Q (position p).1.2 - to_Q lit_0_5)%Q /\
       (forall q, App random !! (idx - 1) = Some q -> 0 < idx ->
          (to_Q (position q).1.2 + to_Q lit_0_5
           < to_Q (position p).1.2 - to_Q lit_0_5)%Q)).
Proof.
  assert (Hhalf : (to_Q lit_0_5 == 1 # 2)%Q) by (vm_compute; reflexivity).
  assert (Hfloor : (to_Q (position App_floor).1.2 == -1)%Q)
    by (vm_compute; reflexivity).
  split; [reflexivity |]. split; [| split].
  - apply App_supported.
  - split; [apply App_lookup_floor |]. split; [reflexivity |].
    split; [vm_compute; reflexivity |]. split; assumption.
  - intros idx Hidx. exists (App_box random idx).
    destruct (App_height idx Hidx) as [Hy Hq].
    split; [apply App_lookup_box; exact Hidx |].
    split; [reflexivity |]. split; [vm_compute; reflexivity |].
    split; [exact Hy |].
    assert (Hpos : (to_Q (position (App_box random idx)).1.2
                    == inject_Z (10 + 2 * Z.of_nat idx))%Q)
      by (cbn [App_box position fst snd]; rewrite Hy; exact Hq).
    split; [exact Hpos |]. split.
    + rewrite Hpos, Hfloor, Hhalf.
      assert (Hge : (inject_Z 10 <= inject_Z (10 + 2 * Z.of_nat idx))%Q)
        by (rewrite <- Zle_Qle; lia).
      change (inject_Z 10) with (10 # 1)%Q in Hge. lra.
    + intros q Hq' H0.
      rewrite App_lookup_box in Hq' by lia. injection Hq' as <-.
      destruct (App_height (idx - 1) ltac:(lia)) as [Hy' Hq''].
      assert (Hpos' : (to_Q (position (App_box random (idx - 1))).1.2
                       == inject_Z (10 + 2 * Z.of_nat (idx - 1)))%Q)
        by (cbn [App_box position fst snd]; rewrite Hy'; exact Hq'').
      rewrite Hpos, Hpos', Hhalf.
      assert (Hstep : (inject_Z (10 + 2 * Z.of_nat idx)
                       == inject_Z (10 + 2 * Z.of_nat (idx - 1)) + 2)%Q).
      { rewrite <- (inject_Z_plus _ 2). f_equiv. lia. }
      rewrite Hstep. lra.
Qed.

(** ** Mounting a whole scene *)

Section MountAllFacts.
Context {W : Type} `{JoltEngine W}.

Lemma RigidBody_motion_supported (t : string) :
  supported_type t -> exists ml, RigidBody_motion t = inr ml.
Proof.
  intros [-> | [-> | ->]]; eexists; reflexivity.
Qed.

Lemma mount_all_attached (l : list (RigidBodyProps * THREE.Object3D)) :
  forallb attached (mount_all l) = true.
Proof. induction l as [| po l IH]; [reflexivity | exact IH]. Qed.

Lemma mount_all_run (l : list (RigidBodyProps * THREE.Object3D))
    (sys : System W) :
  Forall (fun po => supported_shape (shape po.1) /\ supported_type (type po.1))
    l ->
  m_ref <$> mounted (run (mount_all l) sys)
  = reverse (snd <$> l) ++ (m_ref <$> mounted sys) /\
  dom (bodies (st (run (mount_all l) sys)))
  = dom (bodies (st sys)) ∪ list_to_set ((fun po => THREE.id po.2) <$> l).
Proof.
  revert sys. induction l as [| [p o] l IH]; intros sys Hsup.
  - simpl. split; [reflexivity |].
    apply set_eq. intros x. rewrite elem_of_union, elem_of_empty. tauto.
  - apply Forall_cons in Hsup as [[Hsh Hty] Hsup]. simpl in Hsh, Hty.
    apply (RigidBody_shape_supported _ (args p)) in Hsh as [sh Hsh].
    apply RigidBody_motion_supported in Hty as [ml Hml].
    cbn [mount_all fmap list_fmap run fold_left handle fst snd].
    rewrite (useEffect_ok _ _ _ _ _ Hsh Hml).
    match goal with
    | |- context [fold_left handle _ ?sys1] =>
        destruct (IH sys1 Hsup) as [IHm IHd]
    end.
    unfold run, mount_all in IHm, IHd. split.
    + rewrite IHm. simpl. rewrite reverse_cons, <- app_assoc. reflexivity.
    + rewrite IHd. simpl. rewrite dom_insert_L.
      apply set_eq. intros x.
      rewrite !elem_of_union, elem_of_singleton. tauto.
Qed.

End MountAllFacts.

(** X12: mounting a scene.  When rigid bodies of supported shapes and
    motion classes are mounted one after the other, each with its scene
    object in [ref.current], no effect throws: every one of them is mounted,
    the body count grows by their number, the registry holds exactly the ids
    of their scene objects, and one record for each when those ids are
    pairwise distinct. *)
Theorem X12_mount_all_supported {W} `{JoltEngine W}
    (w : W) (l : list (RigidBodyProps * THREE.Object3D)) :
  Forall (fun po => supported_shape (shape po.1) /\ supported_type (type po.1))
    l ->
  m_ref <$> mounted (run (mount_all l) (initial w)) = reverse (snd <$> l) /\
  GetNumBodies (world (st (run (mount_all l) (initial w))))
  = GetNumBodies w + length l /\
  dom (bodies (st (run (mount_all l) (initial w))))
  = list_to_set ((fun po => THREE.id po.2) <$> l) /\
  (NoDup ((fun po => THREE.id po.2) <$> l) ->
   size (bodies (st (run (mount_all l) (initial w)))) = length l).
Proof.
  intros Hsup.
  destruct (mount_all_run l (initial w) Hsup) as [Hm Hd].
  simpl in Hm, Hd. rewrite app_nil_r in Hm.
  assert (Hdom : dom (bodies (st (run (mount_all l) (initial w))))
                 = list_to_set ((fun po => THREE.id po.2) <$> l)).
  { rewrite Hd. apply set_eq. intros x.
    rewrite elem_of_union, dom_empty_L, elem_of_empty. tauto. }
  split; [exact Hm |]. split; [| split; [exact Hdom |]].
  - rewrite (accounted_count w).
    + f_equal. rewrite <- (length_fmap m_ref), Hm.
      rewrite length_reverse, length_fmap. reflexivity.
    + apply accounted_run; [apply mount_all_attached | apply accounted_initial].
  - intros Hnd. rewrite <- size_dom, Hdom.
    rewrite size_list_to_set by exact Hnd. apply length_fmap.
Qed.

(** The scene of [App], with [Math.random] returning 0.5 and the scene
    objects numbered from 1: 101 mounted components, bodies and records. *)
Lemma X12_mount_all_supported_witness :
  let objects := (fun n => THREE.mkObject3D (Z.of_nat n)) <$> seq 1 101 in
  let l := zip (App (fun _ => lit_0_5)) objects in
  let w := RefEngine.empty in
  Forall (fun po => supported_shape (shape po.1) /\ supported_type (type po.1))
    l /\
  length l = 101 /\
  NoDup ((fun po => THREE.id po.2) <$> l) /\
  m_ref <$> mounted (run (mount_all l) (initial w)) = reverse (snd <$> l) /\
  GetNumBodies (world (st (run (mount_all l) (initial w))))
  = GetNumBodies w + length l /\
  dom (bodies (st (run (mount_all l) (initial w))))
  = list_to_set ((fun po => THREE.id po.2) <$> l) /\
  (NoDup ((fun po => THREE.id po.2) <$> l) ->
   size (bodies (st (run (mount_all l) (initial w)))) = length l).
Proof.
  intros objects l w.
  assert (Hsup : Forall (fun po => supported_shape (shape po.1) /\
                                   supported_type (type po.1)) l).
  { apply Forall_forall. intros [p o] Hin. simpl.
    apply elem_of_zip_l in Hin.
    pose proof (App_supported (fun _ => lit_0_5)) as Hall.
    rewrite Forall_forall in Hall. apply (Hall p Hin). }
  split; [exact Hsup |]. split; [reflexivity |].
  split; [apply (bool_decide_eq_true_1
            (NoDup ((fun po => THREE.id po.2) <$> l)));
          vm_compute; reflexivity |].
  exact (X12_mount_all_supported w l Hsup).
Defined.

(** ** The sequence of effects *)

Section TraceFacts.
Context {W : Type} `{JoltEngine W}.

Lemma handle_trace (sys : System W) (ev : Event) :
  exists chunks,
    Forall protocol_chunk chunks /\
    trace (st (handle sys ev)) = trace (st sys) ++ concat chunks.
Proof.
  assert (Hnone : exists chunks,
            Forall protocol_chunk chunks /\
            trace (st sys) = trace (st sys) ++ concat chunks).
  { exists []. split; [constructor | simpl; rewrite app_nil_r; reflexivity]. }
  assert (Hone : forall c t,
            protocol_chunk c -> t = trace (st sys) ++ c ->
            exists chunks,
              Forall protocol_chunk chunks /\
              t = trace (st sys) ++ concat chunks).
  { intros c t Hc ->. exists [c]. split; [constructor; [exact Hc | constructor] |].
    simpl. rewrite app_nil_r. reflexivity. }
  destruct ev as [props ref_current | i a | delta]; cbn [handle].
  - destruct (RigidBody_useEffect props ref_current (st sys)) as [s' r] eqn:E.
    destruct (useEffect_inv _ _ _ _ _ E) as [(e & -> & ->) | (sh & ml & Hs & Hm)];
      [exact Hnone |].
    rewrite (useEffect_created _ _ _ _ _ Hs Hm) in E.
    destruct ref_current as [o |]; injection E as <- <-; simpl.
    + eapply Hone; [| rewrite <- app_assoc; reflexivity].
      right. left. eexists _, _, o. reflexivity.
    + eapply Hone; [| reflexivity].
      right. right. left. eexists _, _. reflexivity.
  - destruct (mounted sys !! i) as [m |]; [| exact Hnone].
    destruct a; cbv zeta.
    + rewrite cleanup_eq. simpl. eapply Hone; [| reflexivity].
      right. right. right. exists (m_ref m), (m_body m). reflexivity.
    + rewrite cleanup_null. exact Hnone.
  - rewrite useFrame_eq. simpl. eapply Hone; [| reflexivity].
    left. eexists _, _. split; [reflexivity |].
    destruct (gt _ _); [right | left]; reflexivity.
Qed.

Lemma run_trace (evs : list Event) (sys : System W) :
  exists chunks,
    Forall protocol_chunk chunks /\
    trace (st (run evs sys)) = trace (st sys) ++ concat chunks.
Proof.
  revert sys. induction evs as [| ev evs IH]; intros sys.
  - exists []. split; [constructor | simpl; rewrite app_nil_r; reflexivity].
  - destruct (IH (handle sys ev)) as (c2 & Hc2 & Ht2).
    destruct (handle_trace sys ev) as (c1 & Hc1 & Ht1).
    exists (c1 ++ c2). split; [apply Forall_app; split; assumption |].
    change (run (ev :: evs) sys) with (run evs (handle sys ev)).
    rewrite Ht2, Ht1, concat_app, app_assoc. reflexivity.
Qed.

End TraceFacts.

(** X13: how the program drives the engine, over the whole life of the
    scene.  The effects of any sequence of mounts, unmounts and frames fall
    into four patterns and no others: a [Step] of one or two sub-steps; a
    body created, at once added with [Activate], and registered; a body
    created and added, where the registration threw; a record deleted and at
    once a body destroyed.  In particular a body is never destroyed unless a
    record was deleted just before, and a body is never added except just
    after its creation. *)
Theorem X13_effects_follow_the_protocol {W} `{JoltEngine W}
    (w : W) (evs : list Event) :
  exists chunks,
    Forall protocol_chunk chunks /\
    trace (st (run evs (initial w))) = concat chunks /\
    (forall before i after,
       trace (st (run evs (initial w)))
       = before ++ E_DestroyBody i :: after ->
       exists key front, before = front ++ [E_bodies_delete key]).
Proof.
  destruct (run_trace evs (initial w)) as (chunks & Hch & Htr).
  simpl in Htr. exists chunks. split; [exact Hch |]. split; [exact Htr |].
  rewrite Htr. clear Htr.
  induction Hch as [| c chunks Hc Hch IH]; intros before i after Heq.
  - destruct before; discriminate Heq.
  - simpl in Heq.
    assert (Hcase :
      (exists rest, before = c ++ rest /\
                    concat chunks = rest ++ E_DestroyBody i :: after) \/
      (exists key front, before = front ++ [E_bodies_delete key])).
    { destruct Hc as [(dt & n & -> & _) | [(cs & b & o & ->) |
                      [(cs & b & ->) | (o & b & ->)]]]; simpl in Heq.
      - destruct before as [| e0 before]; [discriminate Heq |].
        injection Heq as -> Heq. left. exists before. split; [reflexivity |].
        exact Heq.
      - destruct before as [| e0 [| e1 [| e2 before]]]; try discriminate Heq.
        injection Heq as -> -> -> Heq. left. exists before.
        split; [reflexivity | exact Heq].
      - destruct before as [| e0 [| e1 before]]; try discriminate Heq.
        injection Heq as -> -> Heq. left. exists before.
        split; [reflexivity | exact Heq].
      - destruct before as [| e0 [| e1 before]]; try discriminate Heq.
        + injection Heq as He0 _ _. subst e0. right.
          exists (THREE.id o), []. reflexivity.
        + injection Heq as -> -> Heq. left. exists before.
          split; [reflexivity | exact Heq]. }
    destruct Hcase as [(rest & -> & Hrest) | Hdone]; [| exact Hdone].
    destruct (IH rest i after Hrest) as (key & front & ->).
    exists key, (c ++ front). rewrite app_assoc. reflexivity.
Qed.
